(** * Saidika: the emotion classifier, the reply selector and the views of [app.py]

    The development embeds the decision procedures of the chat application
    and the views around them:

    - [detect_emotion] (app.py, lines 21-42), the keyword classifier;
    - the body of the POST branch of [chat] (app.py, lines 153-201), which
      picks the bot reply and stores an [Alert] row for a crisis message;
    - the views [root], [register], [login], [logout], [home], [chat],
      [tracker], [advisor], [therapist] and [report] with the decorator
      [login_required], over the four tables of models.py, and the
      application as a transition system on sessions and database.

    A Python [str] is modelled as what it is, a sequence of Unicode code
    points: the type [string] of this file, with a code point where the
    Standard Library's strings have a byte.  A literal between double
    quotes is read as UTF-8 and stands for the sequence of its code
    points.  [w in text] is the test for a contiguous subsequence.

    [str.lower] and [str.strip] are modelled as CPython computes them: the
    full lowercase mapping of each code point, the capital sigma by the
    Final_Sigma rule, and the white space of [str.isspace].  The mappings
    and the character properties are those of the Unicode Character
    Database 14.0, which CPython 3.11 carries, written out in [Unicode].

    Each table of the database is the list of its rows in insertion order,
    which is the order of their ids; a new user gets the id SQLite gives,
    one above the largest in use; [flask_bcrypt] is an interface with two
    operations that may raise; the session is the record of the two keys
    the code uses, held per browser; the clock readings are arguments. *)

From Stdlib Require Import List Bool ZArith NArith Lia.
From Stdlib.Strings Require Import Byte.
Import ListNotations.

Local Open Scope list_scope.

(** ** Strings of code points *)

Module String.

Inductive string : Set :=
| EmptyString : string
| String (c : N) (s : string) : string.

(** [s1 + s2] *)
Fixpoint append (s1 s2 : string) : string :=
  match s1 with
  | EmptyString => s2
  | String c s1' => String c (append s1' s2)
  end.

(** [s1 == s2] *)
Fixpoint eqb (s1 s2 : string) : bool :=
  match s1, s2 with
  | EmptyString, EmptyString => true
  | String c1 s1', String c2 s2' => N.eqb c1 c2 && eqb s1' s2'
  | _, _ => false
  end.

(** [len(s)] *)
Fixpoint length (s : string) : nat :=
  match s with
  | EmptyString => O
  | String _ s' => S (length s')
  end.

Fixpoint of_list (l : list N) : string :=
  match l with
  | [] => EmptyString
  | c :: l' => String c (of_list l')
  end.

(** Reading a literal: its bytes, decoded as UTF-8. *)
Fixpoint utf8_decode (fuel : nat) (bs : list byte) : string :=
  match fuel with
  | O => EmptyString
  | S fuel =>
      match bs with
      | [] => EmptyString
      | b :: r =>
          let n := Byte.to_N b in
          if (n <? 128)%N then String n (utf8_decode fuel r)
          else if (n <? 224)%N then
            match r with
            | b1 :: r' =>
                String ((n - 192) * 64 + (Byte.to_N b1 - 128))%N
                       (utf8_decode fuel r')
            | _ => String n EmptyString
            end
          else if (n <? 240)%N then
            match r with
            | b1 :: b2 :: r' =>
                String ((n - 224) * 4096 + (Byte.to_N b1 - 128) * 64
                        + (Byte.to_N b2 - 128))%N
                       (utf8_decode fuel r')
            | _ => String n EmptyString
            end
          else
            match r with
            | b1 :: b2 :: b3 :: r' =>
                String ((n - 240) * 262144 + (Byte.to_N b1 - 128) * 4096
                        + (Byte.to_N b2 - 128) * 64 + (Byte.to_N b3 - 128))%N
                       (utf8_decode fuel r')
            | _ => String n EmptyString
            end
      end
  end.

Definition of_bytes (bs : list byte) : string :=
  utf8_decode (List.length bs) bs.

(** Printing a literal: its code points, encoded as UTF-8. *)
Definition to_byte (n : N) : byte :=
  match Byte.of_N n with
  | Some b => b
  | None => Byte.x3f
  end.

Fixpoint to_bytes (s : string) : list byte :=
  match s with
  | EmptyString => []
  | String c r =>
      (if (c <? 128)%N then [to_byte c]
       else if (c <? 2048)%N then
         [to_byte (192 + c / 64); to_byte (128 + c mod 64)]
       else if (c <? 65536)%N then
         [to_byte (224 + c / 4096); to_byte (128 + (c / 64) mod 64);
          to_byte (128 + c mod 64)]
       else
         [to_byte (240 + c / 262144); to_byte (128 + (c / 4096) mod 64);
          to_byte (128 + (c / 64) mod 64); to_byte (128 + c mod 64)])%N
      ++ to_bytes r
  end.

Declare Scope string_scope.
Delimit Scope string_scope with string.
Bind Scope string_scope with string.
String Notation string of_bytes to_bytes : string_scope.
Notation "s1 ++ s2" := (append s1 s2) : string_scope.

End String.

Import String.

Local Open Scope string_scope.

(** ** The Unicode Character Database, version 14.0 *)

Module Unicode.

(** The code points outside ASCII whose lowercase mapping is not the code
    point itself, each with its full lowercase mapping. *)
Definition lower_map : list (N * list N) :=
  [
   (192, [224]); (193, [225]); (194, [226]); (195, [227]); (196, [228]);
   (197, [229]); (198, [230]); (199, [231]); (200, [232]); (201, [233]);
   (202, [234]); (203, [235]); (204, [236]); (205, [237]); (206, [238]);
   (207, [239]); (208, [240]); (209, [241]); (210, [242]); (211, [243]);
   (212, [244]); (213, [245]); (214, [246]); (216, [248]); (217, [249]);
   (218, [250]); (219, [251]); (220, [252]); (221, [253]); (222, [254]);
   (256, [257]); (258, [259]); (260, [261]); (262, [263]); (264, [265]);
   (266, [267]); (268, [269]); (270, [271]); (272, [273]); (274, [275]);
   (276, [277]); (278, [279]); (280, [281]); (282, [283]); (284, [285]);
   (286, [287]); (288, [289]); (290, [291]); (292, [293]); (294, [295]);
   (296, [297]); (298, [299]); (300, [301]); (302, [303]);
   (304, [105; 775]); (306, [307]); (308, [309]); (310, [311]);
   (313, [314]); (315, [316]); (317, [318]); (319, [320]); (321, [322]);
   (323, [324]); (325, [326]); (327, [328]); (330, [331]); (332, [333]);
   (334, [335]); (336, [337]); (338, [339]); (340, [341]); (342, [343]);
   (344, [345]); (346, [347]); (348, [349]); (350, [351]); (352, [353]);
   (354, [355]); (356, [357]); (358, [359]); (360, [361]); (362, [363]);
   (364, [365]); (366, [367]); (368, [369]); (370, [371]); (372, [373]);
   (374, [375]); (376, [255]); (377, [378]); (379, [380]); (381, [382]);
   (385, [595]); (386, [387]); (388, [389]); (390, [596]); (391, [392]);
   (393, [598]); (394, [599]); (395, [396]); (398, [477]); (399, [601]);
   (400, [603]); (401, [402]); (403, [608]); (404, [611]); (406, [617]);
   (407, [616]); (408, [409]); (412, [623]); (413, [626]); (415, [629]);
   (416, [417]); (418, [419]); (420, [421]); (422, [640]); (423, [424]);
   (425, [643]); (428, [429]); (430, [648]); (431, [432]); (433, [650]);
   (434, [651]); (435, [436]); (437, [438]); (439, [658]); (440, [441]);
   (444, [445]); (452, [454]); (453, [454]); (455, [457]); (456, [457]);
   (458, [460]); (459, [460]); (461, [462]); (463, [464]); (465, [466]);
   (467, [468]); (469, [470]); (471, [472]); (473, [474]); (475, [476]);
   (478, [479]); (480, [481]); (482, [483]); (484, [485]); (486, [487]);
   (488, [489]); (490, [491]); (492, [493]); (494, [495]); (497, [499]);
   (498, [499]); (500, [501]); (502, [405]); (503, [447]); (504, [505]);
   (506, [507]); (508, [509]); (510, [511]); (512, [513]); (514, [515]);
   (516, [517]); (518, [519]); (520, [521]); (522, [523]); (524, [525]);
   (526, [527]); (528, [529]); (530, [531]); (532, [533]); (534, [535]);
   (536, [537]); (538, [539]); (540, [541]); (542, [543]); (544, [414]);
   (546, [547]); (548, [549]); (550, [551]); (552, [553]); (554, [555]);
   (556, [557]); (558, [559]); (560, [561]); (562, [563]); (570, [11365]);
   (571, [572]); (573, [410]); (574, [11366]); (577, [578]); (579, [384]);
   (580, [649]); (581, [652]); (582, [583]); (584, [585]); (586, [587]);
   (588, [589]); (590, [591]); (880, [881]); (882, [883]); (886, [887]);
   (895, [1011]); (902, [940]); (904, [941]); (905, [942]); (906, [943]);
   (908, [972]); (910, [973]); (911, [974]); (913, [945]); (914, [946]);
   (915, [947]); (916, [948]); (917, [949]); (918, [950]); (919, [951]);
   (920, [952]); (921, [953]); (922, [954]); (923, [955]); (924, [956]);
   (925, [957]); (926, [958]); (927, [959]); (928, [960]); (929, [961]);
   (931, [963]); (932, [964]); (933, [965]); (934, [966]); (935, [967]);
   (936, [968]); (937, [969]); (938, [970]); (939, [971]); (975, [983]);
   (984, [985]); (986, [987]); (988, [989]); (990, [991]); (992, [993]);
   (994, [995]); (996, [997]); (998, [999]); (1000, [1001]);
   (1002, [1003]); (1004, [1005]); (1006, [1007]); (1012, [952]);
   (1015, [1016]); (1017, [1010]); (1018, [1019]); (1021, [891]);
   (1022, [892]); (1023, [893]); (1024, [1104]); (1025, [1105]);
   (1026, [1106]); (1027, [1107]); (1028, [1108]); (1029, [1109]);
   (1030, [1110]); (1031, [1111]); (1032, [1112]); (1033, [1113]);
   (1034, [1114]); (1035, [1115]); (1036, [1116]); (1037, [1117]);
   (1038, [1118]); (1039, [1119]); (1040, [1072]); (1041, [1073]);
   (1042, [1074]); (1043, [1075]); (1044, [1076]); (1045, [1077]);
   (1046, [1078]); (1047, [1079]); (1048, [1080]); (1049, [1081]);
   (1050, [1082]); (1051, [1083]); (1052, [1084]); (1053, [1085]);
   (1054, [1086]); (1055, [1087]); (1056, [1088]); (1057, [1089]);
   (1058, [1090]); (1059, [1091]); (1060, [1092]); (1061, [1093]);
   (1062, [1094]); (1063, [1095]); (1064, [1096]); (1065, [1097]);
   (1066, [1098]); (1067, [1099]); (1068, [1100]); (1069, [1101]);
   (1070, [1102]); (1071, [1103]); (1120, [1121]); (1122, [1123]);
   (1124, [1125]); (1126, [1127]); (1128, [1129]); (1130, [1131]);
   (1132, [1133]); (1134, [1135]); (1136, [1137]); (1138, [1139]);
   (1140, [1141]); (1142, [1143]); (1144, [1145]); (1146, [1147]);
   (1148, [1149]); (1150, [1151]); (1152, [1153]); (1162, [1163]);
   (1164, [1165]); (1166, [1167]); (1168, [1169]); (1170, [1171]);
   (1172, [1173]); (1174, [1175]); (1176, [1177]); (1178, [1179]);
   (1180, [1181]); (1182, [1183]); (1184, [1185]); (1186, [1187]);
   (1188, [1189]); (1190, [1191]); (1192, [1193]); (1194, [1195]);
   (1196, [1197]); (1198, [1199]); (1200, [1201]); (1202, [1203]);
   (1204, [1205]); (1206, [1207]); (1208, [1209]); (1210, [1211]);
   (1212, [1213]); (1214, [1215]); (1216, [1231]); (1217, [1218]);
   (1219, [1220]); (1221, [1222]); (1223, [1224]); (1225, [1226]);
   (1227, [1228]); (1229, [1230]); (1232, [1233]); (1234, [1235]);
   (1236, [1237]); (1238, [1239]); (1240, [1241]); (1242, [1243]);
   (1244, [1245]); (1246, [1247]); (1248, [1249]); (1250, [1251]);
   (1252, [1253]); (1254, [1255]); (1256, [1257]); (1258, [1259]);
   (1260, [1261]); (1262, [1263]); (1264, [1265]); (1266, [1267]);
   (1268, [1269]); (1270, [1271]); (1272, [1273]); (1274, [1275]);
   (1276, [1277]); (1278, [1279]); (1280, [1281]); (1282, [1283]);
   (1284, [1285]); (1286, [1287]); (1288, [1289]); (1290, [1291]);
   (1292, [1293]); (1294, [1295]); (1296, [1297]); (1298, [1299]);
   (1300, [1301]); (1302, [1303]); (1304, [1305]); (1306, [1307]);
   (1308, [1309]); (1310, [1311]); (1312, [1313]); (1314, [1315]);
   (1316, [1317]); (1318, [1319]); (1320, [1321]); (1322, [1323]);
   (1324, [1325]); (1326, [1327]); (1329, [1377]); (1330, [1378]);
   (1331, [1379]); (1332, [1380]); (1333, [1381]); (1334, [1382]);
   (1335, [1383]); (1336, [1384]); (1337, [1385]); (1338, [1386]);
   (1339, [1387]); (1340, [1388]); (1341, [1389]); (1342, [1390]);
   (1343, [1391]); (1344, [1392]); (1345, [1393]); (1346, [1394]);
   (1347, [1395]); (1348, [1396]); (1349, [1397]); (1350, [1398]);
   (1351, [1399]); (1352, [1400]); (1353, [1401]); (1354, [1402]);
   (1355, [1403]); (1356, [1404]); (1357, [1405]); (1358, [1406]);
   (1359, [1407]); (1360, [1408]); (1361, [1409]); (1362, [1410]);
   (1363, [1411]); (1364, [1412]); (1365, [1413]); (1366, [1414]);
   (4256, [11520]); (4257, [11521]); (4258, [11522]); (4259, [11523]);
   (4260, [11524]); (4261, [11525]); (4262, [11526]); (4263, [11527]);
   (4264, [11528]); (4265, [11529]); (4266, [11530]); (4267, [11531]);
   (4268, [11532]); (4269, [11533]); (4270, [11534]); (4271, [11535]);
   (4272, [11536]); (4273, [11537]); (4274, [11538]); (4275, [11539]);
   (4276, [11540]); (4277, [11541]); (4278, [11542]); (4279, [11543]);
   (4280, [11544]); (4281, [11545]); (4282, [11546]); (4283, [11547]);
   (4284, [11548]); (4285, [11549]); (4286, [11550]); (4287, [11551]);
   (4288, [11552]); (4289, [11553]); (4290, [11554]); (4291, [11555]);
   (4292, [11556]); (4293, [11557]); (4295, [11559]); (4301, [11565]);
   (5024, [43888]); (5025, [43889]); (5026, [43890]); (5027, [43891]);
   (5028, [43892]); (5029, [43893]); (5030, [43894]); (5031, [43895]);
   (5032, [43896]); (5033, [43897]); (5034, [43898]); (5035, [43899]);
   (5036, [43900]); (5037, [43901]); (5038, [43902]); (5039, [43903]);
   (5040, [43904]); (5041, [43905]); (5042, [43906]); (5043, [43907]);
   (5044, [43908]); (5045, [43909]); (5046, [43910]); (5047, [43911]);
   (5048, [43912]); (5049, [43913]); (5050, [43914]); (5051, [43915]);
   (5052, [43916]); (5053, [43917]); (5054, [43918]); (5055, [43919]);
   (5056, [43920]); (5057, [43921]); (5058, [43922]); (5059, [43923]);
   (5060, [43924]); (5061, [43925]); (5062, [43926]); (5063, [43927]);
   (5064, [43928]); (5065, [43929]); (5066, [43930]); (5067, [43931]);
   (5068, [43932]); (5069, [43933]); (5070, [43934]); (5071, [43935]);
   (5072, [43936]); (5073, [43937]); (5074, [43938]); (5075, [43939]);
   (5076, [43940]); (5077, [43941]); (5078, [43942]); (5079, [43943]);
   (5080, [43944]); (5081, [43945]); (5082, [43946]); (5083, [43947]);
   (5084, [43948]); (5085, [43949]); (5086, [43950]); (5087, [43951]);
   (5088, [43952]); (5089, [43953]); (5090, [43954]); (5091, [43955]);
   (5092, [43956]); (5093, [43957]); (5094, [43958]); (5095, [43959]);
   (5096, [43960]); (5097, [43961]); (5098, [43962]); (5099, [43963]);
   (5100, [43964]); (5101, [43965]); (5102, [43966]); (5103, [43967]);
   (5104, [5112]); (5105, [5113]); (5106, [5114]); (5107, [5115]);
   (5108, [5116]); (5109, [5117]); (7312, [4304]); (7313, [4305]);
   (7314, [4306]); (7315, [4307]); (7316, [4308]); (7317, [4309]);
   (7318, [4310]); (7319, [4311]); (7320, [4312]); (7321, [4313]);
   (7322, [4314]); (7323, [4315]); (7324, [4316]); (7325, [4317]);
   (7326, [4318]); (7327, [4319]); (7328, [4320]); (7329, [4321]);
   (7330, [4322]); (7331, [4323]); (7332, [4324]); (7333, [4325]);
   (7334, [4326]); (7335, [4327]); (7336, [4328]); (7337, [4329]);
   (7338, [4330]); (7339, [4331]); (7340, [4332]); (7341, [4333]);
   (7342, [4334]); (7343, [4335]); (7344, [4336]); (7345, [4337]);
   (7346, [4338]); (7347, [4339]); (7348, [4340]); (7349, [4341]);
   (7350, [4342]); (7351, [4343]); (7352, [4344]); (7353, [4345]);
   (7354, [4346]); (7357, [4349]); (7358, [4350]); (7359, [4351]);
   (7680, [7681]); (7682, [7683]); (7684, [7685]); (7686, [7687]);
   (7688, [7689]); (7690, [7691]); (7692, [7693]); (7694, [7695]);
   (7696, [7697]); (7698, [7699]); (7700, [7701]); (7702, [7703]);
   (7704, [7705]); (7706, [7707]); (7708, [7709]); (7710, [7711]);
   (7712, [7713]); (7714, [7715]); (7716, [7717]); (7718, [7719]);
   (7720, [7721]); (7722, [7723]); (7724, [7725]); (7726, [7727]);
   (7728, [7729]); (7730, [7731]); (7732, [7733]); (7734, [7735]);
   (7736, [7737]); (7738, [7739]); (7740, [7741]); (7742, [7743]);
   (7744, [7745]); (7746, [7747]); (7748, [7749]); (7750, [7751]);
   (7752, [7753]); (7754, [7755]); (7756, [7757]); (7758, [7759]);
   (7760, [7761]); (7762, [7763]); (7764, [7765]); (7766, [7767]);
   (7768, [7769]); (7770, [7771]); (7772, [7773]); (7774, [7775]);
   (7776, [7777]); (7778, [7779]); (7780, [7781]); (7782, [7783]);
   (7784, [7785]); (7786, [7787]); (7788, [7789]); (7790, [7791]);
   (7792, [7793]); (7794, [7795]); (7796, [7797]); (7798, [7799]);
   (7800, [7801]); (7802, [7803]); (7804, [7805]); (7806, [7807]);
   (7808, [7809]); (7810, [7811]); (7812, [7813]); (7814, [7815]);
   (7816, [7817]); (7818, [7819]); (7820, [7821]); (7822, [7823]);
   (7824, [7825]); (7826, [7827]); (7828, [7829]); (7838, [223]);
   (7840, [7841]); (7842, [7843]); (7844, [7845]); (7846, [7847]);
   (7848, [7849]); (7850, [7851]); (7852, [7853]); (7854, [7855]);
   (7856, [7857]); (7858, [7859]); (7860, [7861]); (7862, [7863]);
   (7864, [7865]); (7866, [7867]); (7868, [7869]); (7870, [7871]);
   (7872, [7873]); (7874, [7875]); (7876, [7877]); (7878, [7879]);
   (7880, [7881]); (7882, [7883]); (7884, [7885]); (7886, [7887]);
   (7888, [7889]); (7890, [7891]); (7892, [7893]); (7894, [7895]);
   (7896, [7897]); (7898, [7899]); (7900, [7901]); (7902, [7903]);
   (7904, [7905]); (7906, [7907]); (7908, [7909]); (7910, [7911]);
   (7912, [7913]); (7914, [7915]); (7916, [7917]); (7918, [7919]);
   (7920, [7921]); (7922, [7923]); (7924, [7925]); (7926, [7927]);
   (7928, [7929]); (7930, [7931]); (7932, [7933]); (7934, [7935]);
   (7944, [7936]); (7945, [7937]); (7946, [7938]); (7947, [7939]);
   (7948, [7940]); (7949, [7941]); (7950, [7942]); (7951, [7943]);
   (7960, [7952]); (7961, [7953]); (7962, [7954]); (7963, [7955]);
   (7964, [7956]); (7965, [7957]); (7976, [7968]); (7977, [7969]);
   (7978, [7970]); (7979, [7971]); (7980, [7972]); (7981, [7973]);
   (7982, [7974]); (7983, [7975]); (7992, [7984]); (7993, [7985]);
   (7994, [7986]); (7995, [7987]); (7996, [7988]); (7997, [7989]);
   (7998, [7990]); (7999, [7991]); (8008, [8000]); (8009, [8001]);
   (8010, [8002]); (8011, [8003]); (8012, [8004]); (8013, [8005]);
   (8025, [8017]); (8027, [8019]); (8029, [8021]); (8031, [8023]);
   (8040, [8032]); (8041, [8033]); (8042, [8034]); (8043, [8035]);
   (8044, [8036]); (8045, [8037]); (8046, [8038]); (8047, [8039]);
   (8072, [8064]); (8073, [8065]); (8074, [8066]); (8075, [8067]);
   (8076, [8068]); (8077, [8069]); (8078, [8070]); (8079, [8071]);
   (8088, [8080]); (8089, [8081]); (8090, [8082]); (8091, [8083]);
   (8092, [8084]); (8093, [8085]); (8094, [8086]); (8095, [8087]);
   (8104, [8096]); (8105, [8097]); (8106, [8098]); (8107, [8099]);
   (8108, [8100]); (8109, [8101]); (8110, [8102]); (8111, [8103]);
   (8120, [8112]); (8121, [8113]); (8122, [8048]); (8123, [8049]);
   (8124, [8115]); (8136, [8050]); (8137, [8051]); (8138, [8052]);
   (8139, [8053]); (8140, [8131]); (8152, [8144]); (8153, [8145]);
   (8154, [8054]); (8155, [8055]); (8168, [8160]); (8169, [8161]);
   (8170, [8058]); (8171, [8059]); (8172, [8165]); (8184, [8056]);
   (8185, [8057]); (8186, [8060]); (8187, [8061]); (8188, [8179]);
   (8486, [969]); (8490, [107]); (8491, [229]); (8498, [8526]);
   (8544, [8560]); (8545, [8561]); (8546, [8562]); (8547, [8563]);
   (8548, [8564]); (8549, [8565]); (8550, [8566]); (8551, [8567]);
   (8552, [8568]); (8553, [8569]); (8554, [8570]); (8555, [8571]);
   (8556, [8572]); (8557, [8573]); (8558, [8574]); (8559, [8575]);
   (8579, [8580]); (9398, [9424]); (9399, [9425]); (9400, [9426]);
   (9401, [9427]); (9402, [9428]); (9403, [9429]); (9404, [9430]);
   (9405, [9431]); (9406, [9432]); (9407, [9433]); (9408, [9434]);
   (9409, [9435]); (9410, [9436]); (9411, [9437]); (9412, [9438]);
   (9413, [9439]); (9414, [9440]); (9415, [9441]); (9416, [9442]);
   (9417, [9443]); (9418, [9444]); (9419, [9445]); (9420, [9446]);
   (9421, [9447]); (9422, [9448]); (9423, [9449]); (11264, [11312]);
   (11265, [11313]); (11266, [11314]); (11267, [11315]); (11268, [11316]);
   (11269, [11317]); (11270, [11318]); (11271, [11319]); (11272, [11320]);
   (11273, [11321]); (11274, [11322]); (11275, [11323]); (11276, [11324]);
   (11277, [11325]); (11278, [11326]); (11279, [11327]); (11280, [11328]);
   (11281, [11329]); (11282, [11330]); (11283, [11331]); (11284, [11332]);
   (11285, [11333]); (11286, [11334]); (11287, [11335]); (11288, [11336]);
   (11289, [11337]); (11290, [11338]); (11291, [11339]); (11292, [11340]);
   (11293, [11341]); (11294, [11342]); (11295, [11343]); (11296, [11344]);
   (11297, [11345]); (11298, [11346]); (11299, [11347]); (11300, [11348]);
   (11301, [11349]); (11302, [11350]); (11303, [11351]); (11304, [11352]);
   (11305, [11353]); (11306, [11354]); (11307, [11355]); (11308, [11356]);
   (11309, [11357]); (11310, [11358]); (11311, [11359]); (11360, [11361]);
   (11362, [619]); (11363, [7549]); (11364, [637]); (11367, [11368]);
   (11369, [11370]); (11371, [11372]); (11373, [593]); (11374, [625]);
   (11375, [592]); (11376, [594]); (11378, [11379]); (11381, [11382]);
   (11390, [575]); (11391, [576]); (11392, [11393]); (11394, [11395]);
   (11396, [11397]); (11398, [11399]); (11400, [11401]); (11402, [11403]);
   (11404, [11405]); (11406, [11407]); (11408, [11409]); (11410, [11411]);
   (11412, [11413]); (11414, [11415]); (11416, [11417]); (11418, [11419]);
   (11420, [11421]); (11422, [11423]); (11424, [11425]); (11426, [11427]);
   (11428, [11429]); (11430, [11431]); (11432, [11433]); (11434, [11435]);
   (11436, [11437]); (11438, [11439]); (11440, [11441]); (11442, [11443]);
   (11444, [11445]); (11446, [11447]); (11448, [11449]); (11450, [11451]);
   (11452, [11453]); (11454, [11455]); (11456, [11457]); (11458, [11459]);
   (11460, [11461]); (11462, [11463]); (11464, [11465]); (11466, [11467]);
   (11468, [11469]); (11470, [11471]); (11472, [11473]); (11474, [11475]);
   (11476, [11477]); (11478, [11479]); (11480, [11481]); (11482, [11483]);
   (11484, [11485]); (11486, [11487]); (11488, [11489]); (11490, [11491]);
   (11499, [11500]); (11501, [11502]); (11506, [11507]); (42560, [42561]);
   (42562, [42563]); (42564, [42565]); (42566, [42567]); (42568, [42569]);
   (42570, [42571]); (42572, [42573]); (42574, [42575]); (42576, [42577]);
   (42578, [42579]); (42580, [42581]); (42582, [42583]); (42584, [42585]);
   (42586, [42587]); (42588, [42589]); (42590, [42591]); (42592, [42593]);
   (42594, [42595]); (42596, [42597]); (42598, [42599]); (42600, [42601]);
   (42602, [42603]); (42604, [42605]); (42624, [42625]); (42626, [42627]);
   (42628, [42629]); (42630, [42631]); (42632, [42633]); (42634, [42635]);
   (42636, [42637]); (42638, [42639]); (42640, [42641]); (42642, [42643]);
   (42644, [42645]); (42646, [42647]); (42648, [42649]); (42650, [42651]);
   (42786, [42787]); (42788, [42789]); (42790, [42791]); (42792, [42793]);
   (42794, [42795]); (42796, [42797]); (42798, [42799]); (42802, [42803]);
   (42804, [42805]); (42806, [42807]); (42808, [42809]); (42810, [42811]);
   (42812, [42813]); (42814, [42815]); (42816, [42817]); (42818, [42819]);
   (42820, [42821]); (42822, [42823]); (42824, [42825]); (42826, [42827]);
   (42828, [42829]); (42830, [42831]); (42832, [42833]); (42834, [42835]);
   (42836, [42837]); (42838, [42839]); (42840, [42841]); (42842, [42843]);
   (42844, [42845]); (42846, [42847]); (42848, [42849]); (42850, [42851]);
   (42852, [42853]); (42854, [42855]); (42856, [42857]); (42858, [42859]);
   (42860, [42861]); (42862, [42863]); (42873, [42874]); (42875, [42876]);
   (42877, [7545]); (42878, [42879]); (42880, [42881]); (42882, [42883]);
   (42884, [42885]); (42886, [42887]); (42891, [42892]); (42893, [613]);
   (42896, [42897]); (42898, [42899]); (42902, [42903]); (42904, [42905]);
   (42906, [42907]); (42908, [42909]); (42910, [42911]); (42912, [42913]);
   (42914, [42915]); (42916, [42917]); (42918, [42919]); (42920, [42921]);
   (42922, [614]); (42923, [604]); (42924, [609]); (42925, [620]);
   (42926, [618]); (42928, [670]); (42929, [647]); (42930, [669]);
   (42931, [43859]); (42932, [42933]); (42934, [42935]); (42936, [42937]);
   (42938, [42939]); (42940, [42941]); (42942, [42943]); (42944, [42945]);
   (42946, [42947]); (42948, [42900]); (42949, [642]); (42950, [7566]);
   (42951, [42952]); (42953, [42954]); (42960, [42961]); (42966, [42967]);
   (42968, [42969]); (42997, [42998]); (65313, [65345]); (65314, [65346]);
   (65315, [65347]); (65316, [65348]); (65317, [65349]); (65318, [65350]);
   (65319, [65351]); (65320, [65352]); (65321, [65353]); (65322, [65354]);
   (65323, [65355]); (65324, [65356]); (65325, [65357]); (65326, [65358]);
   (65327, [65359]); (65328, [65360]); (65329, [65361]); (65330, [65362]);
   (65331, [65363]); (65332, [65364]); (65333, [65365]); (65334, [65366]);
   (65335, [65367]); (65336, [65368]); (65337, [65369]); (65338, [65370]);
   (66560, [66600]); (66561, [66601]); (66562, [66602]); (66563, [66603]);
   (66564, [66604]); (66565, [66605]); (66566, [66606]); (66567, [66607]);
   (66568, [66608]); (66569, [66609]); (66570, [66610]); (66571, [66611]);
   (66572, [66612]); (66573, [66613]); (66574, [66614]); (66575, [66615]);
   (66576, [66616]); (66577, [66617]); (66578, [66618]); (66579, [66619]);
   (66580, [66620]); (66581, [66621]); (66582, [66622]); (66583, [66623]);
   (66584, [66624]); (66585, [66625]); (66586, [66626]); (66587, [66627]);
   (66588, [66628]); (66589, [66629]); (66590, [66630]); (66591, [66631]);
   (66592, [66632]); (66593, [66633]); (66594, [66634]); (66595, [66635]);
   (66596, [66636]); (66597, [66637]); (66598, [66638]); (66599, [66639]);
   (66736, [66776]); (66737, [66777]); (66738, [66778]); (66739, [66779]);
   (66740, [66780]); (66741, [66781]); (66742, [66782]); (66743, [66783]);
   (66744, [66784]); (66745, [66785]); (66746, [66786]); (66747, [66787]);
   (66748, [66788]); (66749, [66789]); (66750, [66790]); (66751, [66791]);
   (66752, [66792]); (66753, [66793]); (66754, [66794]); (66755, [66795]);
   (66756, [66796]); (66757, [66797]); (66758, [66798]); (66759, [66799]);
   (66760, [66800]); (66761, [66801]); (66762, [66802]); (66763, [66803]);
   (66764, [66804]); (66765, [66805]); (66766, [66806]); (66767, [66807]);
   (66768, [66808]); (66769, [66809]); (66770, [66810]); (66771, [66811]);
   (66928, [66967]); (66929, [66968]); (66930, [66969]); (66931, [66970]);
   (66932, [66971]); (66933, [66972]); (66934, [66973]); (66935, [66974]);
   (66936, [66975]); (66937, [66976]); (66938, [66977]); (66940, [66979]);
   (66941, [66980]); (66942, [66981]); (66943, [66982]); (66944, [66983]);
   (66945, [66984]); (66946, [66985]); (66947, [66986]); (66948, [66987]);
   (66949, [66988]); (66950, [66989]); (66951, [66990]); (66952, [66991]);
   (66953, [66992]); (66954, [66993]); (66956, [66995]); (66957, [66996]);
   (66958, [66997]); (66959, [66998]); (66960, [66999]); (66961, [67000]);
   (66962, [67001]); (66964, [67003]); (66965, [67004]); (68736, [68800]);
   (68737, [68801]); (68738, [68802]); (68739, [68803]); (68740, [68804]);
   (68741, [68805]); (68742, [68806]); (68743, [68807]); (68744, [68808]);
   (68745, [68809]); (68746, [68810]); (68747, [68811]); (68748, [68812]);
   (68749, [68813]); (68750, [68814]); (68751, [68815]); (68752, [68816]);
   (68753, [68817]); (68754, [68818]); (68755, [68819]); (68756, [68820]);
   (68757, [68821]); (68758, [68822]); (68759, [68823]); (68760, [68824]);
   (68761, [68825]); (68762, [68826]); (68763, [68827]); (68764, [68828]);
   (68765, [68829]); (68766, [68830]); (68767, [68831]); (68768, [68832]);
   (68769, [68833]); (68770, [68834]); (68771, [68835]); (68772, [68836]);
   (68773, [68837]); (68774, [68838]); (68775, [68839]); (68776, [68840]);
   (68777, [68841]); (68778, [68842]); (68779, [68843]); (68780, [68844]);
   (68781, [68845]); (68782, [68846]); (68783, [68847]); (68784, [68848]);
   (68785, [68849]); (68786, [68850]); (71840, [71872]); (71841, [71873]);
   (71842, [71874]); (71843, [71875]); (71844, [71876]); (71845, [71877]);
   (71846, [71878]); (71847, [71879]); (71848, [71880]); (71849, [71881]);
   (71850, [71882]); (71851, [71883]); (71852, [71884]); (71853, [71885]);
   (71854, [71886]); (71855, [71887]); (71856, [71888]); (71857, [71889]);
   (71858, [71890]); (71859, [71891]); (71860, [71892]); (71861, [71893]);
   (71862, [71894]); (71863, [71895]); (71864, [71896]); (71865, [71897]);
   (71866, [71898]); (71867, [71899]); (71868, [71900]); (71869, [71901]);
   (71870, [71902]); (71871, [71903]); (93760, [93792]); (93761, [93793]);
   (93762, [93794]); (93763, [93795]); (93764, [93796]); (93765, [93797]);
   (93766, [93798]); (93767, [93799]); (93768, [93800]); (93769, [93801]);
   (93770, [93802]); (93771, [93803]); (93772, [93804]); (93773, [93805]);
   (93774, [93806]); (93775, [93807]); (93776, [93808]); (93777, [93809]);
   (93778, [93810]); (93779, [93811]); (93780, [93812]); (93781, [93813]);
   (93782, [93814]); (93783, [93815]); (93784, [93816]); (93785, [93817]);
   (93786, [93818]); (93787, [93819]); (93788, [93820]); (93789, [93821]);
   (93790, [93822]); (93791, [93823]); (125184, [125218]);
   (125185, [125219]); (125186, [125220]); (125187, [125221]);
   (125188, [125222]); (125189, [125223]); (125190, [125224]);
   (125191, [125225]); (125192, [125226]); (125193, [125227]);
   (125194, [125228]); (125195, [125229]); (125196, [125230]);
   (125197, [125231]); (125198, [125232]); (125199, [125233]);
   (125200, [125234]); (125201, [125235]); (125202, [125236]);
   (125203, [125237]); (125204, [125238]); (125205, [125239]);
   (125206, [125240]); (125207, [125241]); (125208, [125242]);
   (125209, [125243]); (125210, [125244]); (125211, [125245]);
   (125212, [125246]); (125213, [125247]); (125214, [125248]);
   (125215, [125249]); (125216, [125250]); (125217, [125251])
  ]%N.

(** The ranges of the code points with the property Cased. *)
Definition cased_ranges : list (N * N) :=
  [
   (65, 90); (97, 122); (170, 170); (181, 181); (186, 186); (192, 214);
   (216, 246); (248, 442); (444, 447); (452, 659); (661, 696); (704, 705);
   (736, 740); (837, 837); (880, 883); (886, 887); (890, 893); (895, 895);
   (902, 902); (904, 906); (908, 908); (910, 929); (931, 1013);
   (1015, 1153); (1162, 1327); (1329, 1366); (1376, 1416); (4256, 4293);
   (4295, 4295); (4301, 4301); (4304, 4346); (4349, 4351); (5024, 5109);
   (5112, 5117); (7296, 7304); (7312, 7354); (7357, 7359); (7424, 7615);
   (7680, 7957); (7960, 7965); (7968, 8005); (8008, 8013); (8016, 8023);
   (8025, 8025); (8027, 8027); (8029, 8029); (8031, 8061); (8064, 8116);
   (8118, 8124); (8126, 8126); (8130, 8132); (8134, 8140); (8144, 8147);
   (8150, 8155); (8160, 8172); (8178, 8180); (8182, 8188); (8305, 8305);
   (8319, 8319); (8336, 8348); (8450, 8450); (8455, 8455); (8458, 8467);
   (8469, 8469); (8473, 8477); (8484, 8484); (8486, 8486); (8488, 8488);
   (8490, 8493); (8495, 8500); (8505, 8505); (8508, 8511); (8517, 8521);
   (8526, 8526); (8544, 8575); (8579, 8580); (9398, 9449); (11264, 11492);
   (11499, 11502); (11506, 11507); (11520, 11557); (11559, 11559);
   (11565, 11565); (42560, 42605); (42624, 42653); (42786, 42887);
   (42891, 42894); (42896, 42954); (42960, 42961); (42963, 42963);
   (42965, 42969); (42997, 42998); (43000, 43002); (43824, 43866);
   (43868, 43880); (43888, 43967); (64256, 64262); (64275, 64279);
   (65313, 65338); (65345, 65370); (66560, 66639); (66736, 66771);
   (66776, 66811); (66928, 66938); (66940, 66954); (66956, 66962);
   (66964, 66965); (66967, 66977); (66979, 66993); (66995, 67001);
   (67003, 67004); (67456, 67456); (67459, 67461); (67463, 67504);
   (67506, 67514); (68736, 68786); (68800, 68850); (71840, 71903);
   (93760, 93823); (119808, 119892); (119894, 119964); (119966, 119967);
   (119970, 119970); (119973, 119974); (119977, 119980); (119982, 119993);
   (119995, 119995); (119997, 120003); (120005, 120069); (120071, 120074);
   (120077, 120084); (120086, 120092); (120094, 120121); (120123, 120126);
   (120128, 120132); (120134, 120134); (120138, 120144); (120146, 120485);
   (120488, 120512); (120514, 120538); (120540, 120570); (120572, 120596);
   (120598, 120628); (120630, 120654); (120656, 120686); (120688, 120712);
   (120714, 120744); (120746, 120770); (120772, 120779); (122624, 122633);
   (122635, 122654); (125184, 125251); (127280, 127305); (127312, 127337);
   (127344, 127369)
  ]%N.

(** The ranges of the code points with the property Case_Ignorable. *)
Definition case_ignorable_ranges : list (N * N) :=
  [
   (39, 39); (46, 46); (58, 58); (94, 94); (96, 96); (168, 168);
   (173, 173); (175, 175); (180, 180); (183, 184); (688, 879); (884, 885);
   (890, 890); (900, 901); (903, 903); (1155, 1161); (1369, 1369);
   (1375, 1375); (1425, 1469); (1471, 1471); (1473, 1474); (1476, 1477);
   (1479, 1479); (1524, 1524); (1536, 1541); (1552, 1562); (1564, 1564);
   (1600, 1600); (1611, 1631); (1648, 1648); (1750, 1757); (1759, 1768);
   (1770, 1773); (1807, 1807); (1809, 1809); (1840, 1866); (1958, 1968);
   (2027, 2037); (2042, 2042); (2045, 2045); (2070, 2093); (2137, 2139);
   (2184, 2184); (2192, 2193); (2200, 2207); (2249, 2306); (2362, 2362);
   (2364, 2364); (2369, 2376); (2381, 2381); (2385, 2391); (2402, 2403);
   (2417, 2417); (2433, 2433); (2492, 2492); (2497, 2500); (2509, 2509);
   (2530, 2531); (2558, 2558); (2561, 2562); (2620, 2620); (2625, 2626);
   (2631, 2632); (2635, 2637); (2641, 2641); (2672, 2673); (2677, 2677);
   (2689, 2690); (2748, 2748); (2753, 2757); (2759, 2760); (2765, 2765);
   (2786, 2787); (2810, 2815); (2817, 2817); (2876, 2876); (2879, 2879);
   (2881, 2884); (2893, 2893); (2901, 2902); (2914, 2915); (2946, 2946);
   (3008, 3008); (3021, 3021); (3072, 3072); (3076, 3076); (3132, 3132);
   (3134, 3136); (3142, 3144); (3146, 3149); (3157, 3158); (3170, 3171);
   (3201, 3201); (3260, 3260); (3263, 3263); (3270, 3270); (3276, 3277);
   (3298, 3299); (3328, 3329); (3387, 3388); (3393, 3396); (3405, 3405);
   (3426, 3427); (3457, 3457); (3530, 3530); (3538, 3540); (3542, 3542);
   (3633, 3633); (3636, 3642); (3654, 3662); (3761, 3761); (3764, 3772);
   (3782, 3782); (3784, 3789); (3864, 3865); (3893, 3893); (3895, 3895);
   (3897, 3897); (3953, 3966); (3968, 3972); (3974, 3975); (3981, 3991);
   (3993, 4028); (4038, 4038); (4141, 4144); (4146, 4151); (4153, 4154);
   (4157, 4158); (4184, 4185); (4190, 4192); (4209, 4212); (4226, 4226);
   (4229, 4230); (4237, 4237); (4253, 4253); (4348, 4348); (4957, 4959);
   (5906, 5908); (5938, 5939); (5970, 5971); (6002, 6003); (6068, 6069);
   (6071, 6077); (6086, 6086); (6089, 6099); (6103, 6103); (6109, 6109);
   (6155, 6159); (6211, 6211); (6277, 6278); (6313, 6313); (6432, 6434);
   (6439, 6440); (6450, 6450); (6457, 6459); (6679, 6680); (6683, 6683);
   (6742, 6742); (6744, 6750); (6752, 6752); (6754, 6754); (6757, 6764);
   (6771, 6780); (6783, 6783); (6823, 6823); (6832, 6862); (6912, 6915);
   (6964, 6964); (6966, 6970); (6972, 6972); (6978, 6978); (7019, 7027);
   (7040, 7041); (7074, 7077); (7080, 7081); (7083, 7085); (7142, 7142);
   (7144, 7145); (7149, 7149); (7151, 7153); (7212, 7219); (7222, 7223);
   (7288, 7293); (7376, 7378); (7380, 7392); (7394, 7400); (7405, 7405);
   (7412, 7412); (7416, 7417); (7468, 7530); (7544, 7544); (7579, 7679);
   (8125, 8125); (8127, 8129); (8141, 8143); (8157, 8159); (8173, 8175);
   (8189, 8190); (8203, 8207); (8216, 8217); (8228, 8228); (8231, 8231);
   (8234, 8238); (8288, 8292); (8294, 8303); (8305, 8305); (8319, 8319);
   (8336, 8348); (8400, 8432); (11388, 11389); (11503, 11505);
   (11631, 11631); (11647, 11647); (11744, 11775); (11823, 11823);
   (12293, 12293); (12330, 12333); (12337, 12341); (12347, 12347);
   (12441, 12446); (12540, 12542); (40981, 40981); (42232, 42237);
   (42508, 42508); (42607, 42610); (42612, 42621); (42623, 42623);
   (42652, 42655); (42736, 42737); (42752, 42785); (42864, 42864);
   (42888, 42890); (42994, 42996); (43000, 43001); (43010, 43010);
   (43014, 43014); (43019, 43019); (43045, 43046); (43052, 43052);
   (43204, 43205); (43232, 43249); (43263, 43263); (43302, 43309);
   (43335, 43345); (43392, 43394); (43443, 43443); (43446, 43449);
   (43452, 43453); (43471, 43471); (43493, 43494); (43561, 43566);
   (43569, 43570); (43573, 43574); (43587, 43587); (43596, 43596);
   (43632, 43632); (43644, 43644); (43696, 43696); (43698, 43700);
   (43703, 43704); (43710, 43711); (43713, 43713); (43741, 43741);
   (43756, 43757); (43763, 43764); (43766, 43766); (43867, 43871);
   (43881, 43883); (44005, 44005); (44008, 44008); (44013, 44013);
   (64286, 64286); (64434, 64450); (65024, 65039); (65043, 65043);
   (65056, 65071); (65106, 65106); (65109, 65109); (65279, 65279);
   (65287, 65287); (65294, 65294); (65306, 65306); (65342, 65342);
   (65344, 65344); (65392, 65392); (65438, 65439); (65507, 65507);
   (65529, 65531); (66045, 66045); (66272, 66272); (66422, 66426);
   (67456, 67461); (67463, 67504); (67506, 67514); (68097, 68099);
   (68101, 68102); (68108, 68111); (68152, 68154); (68159, 68159);
   (68325, 68326); (68900, 68903); (69291, 69292); (69446, 69456);
   (69506, 69509); (69633, 69633); (69688, 69702); (69744, 69744);
   (69747, 69748); (69759, 69761); (69811, 69814); (69817, 69818);
   (69821, 69821); (69826, 69826); (69837, 69837); (69888, 69890);
   (69927, 69931); (69933, 69940); (70003, 70003); (70016, 70017);
   (70070, 70078); (70089, 70092); (70095, 70095); (70191, 70193);
   (70196, 70196); (70198, 70199); (70206, 70206); (70367, 70367);
   (70371, 70378); (70400, 70401); (70459, 70460); (70464, 70464);
   (70502, 70508); (70512, 70516); (70712, 70719); (70722, 70724);
   (70726, 70726); (70750, 70750); (70835, 70840); (70842, 70842);
   (70847, 70848); (70850, 70851); (71090, 71093); (71100, 71101);
   (71103, 71104); (71132, 71133); (71219, 71226); (71229, 71229);
   (71231, 71232); (71339, 71339); (71341, 71341); (71344, 71349);
   (71351, 71351); (71453, 71455); (71458, 71461); (71463, 71467);
   (71727, 71735); (71737, 71738); (71995, 71996); (71998, 71998);
   (72003, 72003); (72148, 72151); (72154, 72155); (72160, 72160);
   (72193, 72202); (72243, 72248); (72251, 72254); (72263, 72263);
   (72273, 72278); (72281, 72283); (72330, 72342); (72344, 72345);
   (72752, 72758); (72760, 72765); (72767, 72767); (72850, 72871);
   (72874, 72880); (72882, 72883); (72885, 72886); (73009, 73014);
   (73018, 73018); (73020, 73021); (73023, 73029); (73031, 73031);
   (73104, 73105); (73109, 73109); (73111, 73111); (73459, 73460);
   (78896, 78904); (92912, 92916); (92976, 92982); (92992, 92995);
   (94031, 94031); (94095, 94111); (94176, 94177); (94179, 94180);
   (110576, 110579); (110581, 110587); (110589, 110590); (113821, 113822);
   (113824, 113827); (118528, 118573); (118576, 118598); (119143, 119145);
   (119155, 119170); (119173, 119179); (119210, 119213); (119362, 119364);
   (121344, 121398); (121403, 121452); (121461, 121461); (121476, 121476);
   (121499, 121503); (121505, 121519); (122880, 122886); (122888, 122904);
   (122907, 122913); (122915, 122916); (122918, 122922); (123184, 123197);
   (123566, 123566); (123628, 123631); (125136, 125142); (125252, 125259);
   (127995, 127999); (917505, 917505); (917536, 917631); (917760, 917999)
  ]%N.

(** The ranges of the code points that [str.isspace] and [str.strip] take for
    white space. *)
Definition space_ranges : list (N * N) :=
  [
   (9, 13); (28, 32); (133, 133); (160, 160); (5760, 5760); (8192, 8202);
   (8232, 8233); (8239, 8239); (8287, 8287); (12288, 12288)
  ]%N.
(** [c] lies in one of the ranges. *)
Definition in_ranges (rs : list (N * N)) (c : N) : bool :=
  existsb (fun '(lo, hi) => ((lo <=? c) && (c <=? hi))%N) rs.

Fixpoint assoc (c : N) (m : list (N * list N)) : option (list N) :=
  match m with
  | [] => None
  | (c', l) :: m' => if N.eqb c c' then Some l else assoc c m'
  end.

(** The full lowercase mapping of a code point: [A]-[Z] to [a]-[z] within
    ASCII, the entry of [lower_map] outside it, the code point itself
    where there is none. *)
Definition to_lower_full (c : N) : list N :=
  if (c <? 128)%N then
    [if ((65 <=? c) && (c <=? 90))%N then (c + 32)%N else c]
  else
    match assoc c lower_map with
    | Some l => l
    | None => [c]
    end.

Definition is_cased (c : N) : bool := in_ranges cased_ranges c.

Definition is_case_ignorable (c : N) : bool :=
  in_ranges case_ignorable_ranges c.

(** Greek capital sigma, and the two small sigmas it lowercases to. *)
Definition capital_sigma : N := 931.
Definition final_sigma : N := 962.
Definition small_sigma : N := 963.

(** U+212A KELVIN SIGN, which lowercases to the letter k. *)
Definition kelvin_sign : N := 8490.

(** U+00A0 NO-BREAK SPACE, which is white space. *)
Definition no_break_space : N := 160.

End Unicode.

Import Unicode.

(** ** Python strings *)

Module PyStr.

(** Final_Sigma, looking ahead: skipping the case-ignorable code points,
    the next one is cased. *)
Fixpoint followed_by_cased (s : string) : bool :=
  match s with
  | EmptyString => false
  | String c s' =>
      if is_case_ignorable c then followed_by_cased s' else is_cased c
  end.

(** [s.lower()], from left to right.  [prev_cased] says that, skipping
    the case-ignorable code points, the one before is cased.  A capital
    sigma becomes the final sigma when a cased code point is before it and
    none is after it, and the small sigma otherwise; every other code
    point becomes its full lowercase mapping. *)
Fixpoint lower_from (prev_cased : bool) (s : string) : string :=
  match s with
  | EmptyString => EmptyString
  | String c s' =>
      let out :=
        if N.eqb c capital_sigma then
          [if prev_cased && negb (followed_by_cased s')
           then final_sigma else small_sigma]
        else to_lower_full c in
      let prev := if is_case_ignorable c then prev_cased else is_cased c in
      String.of_list out ++ lower_from prev s'
  end.

(** [s.lower()]. *)
Definition lower (s : string) : string := lower_from false s.

(** [s.startswith(w)]. *)
Fixpoint startswith (w s : string) : bool :=
  match w, s with
  | EmptyString, _ => true
  | String _ _, EmptyString => false
  | String a w', String b s' => N.eqb a b && startswith w' s'
  end.

(** [w in s]: [w] occurs in [s] as a contiguous substring. *)
Fixpoint contains (w s : string) : bool :=
  startswith w s
  || match s with
     | EmptyString => false
     | String _ s' => contains w s'
     end.

(** [any(w in text for w in ws)]. *)
Definition any_in (ws : list string) (text : string) : bool :=
  existsb (fun w => contains w text) ws.

(** [x or ""] for [x] a string or [None]. *)
Definition or_empty (x : option string) : string :=
  match x with
  | Some s => s
  | None => ""
  end.

(** [d.get(k, default)] on a dict literal, kept as its list of items. *)
Fixpoint dict_get (d : list (string * string)) (k default : string) : string :=
  match d with
  | [] => default
  | (k', v) :: d' => if String.eqb k k' then v else dict_get d' k default
  end.

(** The declarative reading of [w in s]. *)
Definition Substring (w s : string) : Prop :=
  exists a b, s = a ++ w ++ b.

(** Some word of [ws] occurs in [s]. *)
Definition Occurs (ws : list string) (s : string) : Prop :=
  exists w, In w ws /\ Substring w s.

(** Lowercasing leaves the code point alone wherever it stands. *)
Definition stable (c : N) : bool :=
  negb (N.eqb c capital_sigma)
  && match to_lower_full c with
     | [d] => N.eqb d c
     | _ => false
     end.

Fixpoint all_stable (s : string) : bool :=
  match s with
  | EmptyString => true
  | String c s' => stable c && all_stable s'
  end.

End PyStr.

Import PyStr.

(** ** app.py: [detect_emotion] *)

Definition happy_words : list string :=
  ["happy"; "great"; "good"; "excited"; "joy"; "awesome"].
Definition sad_words : list string :=
  ["sad"; "unhappy"; "down"; "depressed"; "cry"; "hurt"].
Definition anxious_words : list string :=
  ["anxious"; "worried"; "scared"; "nervous"; "panic"].
Definition angry_words : list string :=
  ["angry"; "mad"; "frustrated"; "annoyed"].
Definition hopeless_words : list string :=
  ["hopeless"; "tired of life"; "give up"; "can't go on";
   "suicide"; "kill myself"; "end my life"; "die"].

Definition detect_emotion (text : option string) : string :=
  let text := lower (or_empty text) in
  if any_in happy_words text then "happy"
  else if any_in sad_words text then "sad"
  else if any_in anxious_words text then "anxious"
  else if any_in angry_words text then "angry"
  else if any_in hopeless_words text then "crisis"
  else "neutral".

(** ** models.py: the rows the chat handler writes *)

Record Chat : Type := mkChat {
  chat_user_id : Z;
  chat_sender : string;
  chat_text : string;
  chat_time : string
}.

Record Alert : Type := mkAlert {
  alert_user_id : Z;
  alert_risk : string;
  alert_message : string;
  alert_time : string
}.

(** The tables [Chat] and [Alert], oldest row first. *)
Record DB : Type := mkDB {
  chats : list Chat;
  alerts : list Alert
}.

(** [db.session.add(row); db.session.commit()] *)
Definition add_chat (c : Chat) (db : DB) : DB :=
  mkDB (chats db ++ [c])%list (alerts db).

Definition add_alert (a : Alert) (db : DB) : DB :=
  mkDB (chats db) (alerts db ++ [a])%list.

(** ** app.py: the reply selection of [chat] *)

Definition reply_help : string :=
  "🤝 Of course, I'm here to help you. What’s worrying you the most right now?".
Definition reply_not_okay : string :=
  "💛 I'm really sorry you're feeling this way. You’re not alone — tell me more.".
Definition reply_alone : string :=
  "🤍 Feeling alone can be heavy. I'm here with you — you don’t have to carry this alone.".
Definition reply_crisis : string :=
  "🚨 I’m very concerned about your safety. If you feel in danger or are thinking about harming yourself, "
  ++ "please contact emergency services or a hotline. You deserve care and safety.".

Definition responses : list (string * string) :=
  [ ("happy", "😊 That's wonderful! What made you feel good today?");
    ("sad", "😢 I'm sorry you're feeling low. Want to talk about it?");
    ("anxious", "😟 Anxiety can be overwhelming. What's worrying you?");
    ("angry", "😠 Your feelings are valid. What triggered the anger?");
    ("neutral", "🙂 I'm here with you. Tell me more when you're ready.") ].

Definition reply_default : string := "I'm here with you. Tell me more.".

(** Lines 165-195 of [chat]: from the message and its emotion label to the
    bot reply, with the alert row written in the crisis branch. *)
Definition respond (user_id : Z) (ts user_msg emotion : string) (db : DB)
  : string * DB :=
  let t := lower user_msg in
  if contains "help" t || contains "assist" t || contains "support" t then
    (reply_help, db)
  else if contains "not okay" t || contains "hurt" t || contains "pain" t then
    (reply_not_okay, db)
  else if contains "alone" t || contains "lonely" t then
    (reply_alone, db)
  else if String.eqb emotion "crisis" then
    (reply_crisis, add_alert (mkAlert user_id "High" user_msg ts) db)
  else
    (dict_get responses emotion reply_default, db).

(** Lines 153-201 of [chat]: the POST branch, from the stripped form field
    [user_msg] and the two clock readings [ts] and [ts2]. *)
Definition chat_post (user_id : Z) (user_msg ts ts2 : string) (db : DB) : DB :=
  if String.eqb user_msg "" then db
  else
    let db := add_chat (mkChat user_id "user" user_msg ts) db in
    let emotion := detect_emotion (Some user_msg) in
    let (bot_reply, db) := respond user_id ts user_msg emotion db in
    add_chat (mkChat user_id "bot" bot_reply ts2) db.

(** ** Vocabulary of the statements *)

(** The literal phrases tested before the emotion label, by branch. *)
Definition help_phrases : list string := ["help"; "assist"; "support"].
Definition not_okay_phrases : list string := ["not okay"; "hurt"; "pain"].
Definition alone_phrases : list string := ["alone"; "lonely"].
Definition override_phrases : list string :=
  (help_phrases ++ not_okay_phrases ++ alone_phrases)%list.

(** The keywords of the four tables consulted before the crisis table. *)
Definition earlier_words : list string :=
  (happy_words ++ sad_words ++ anxious_words ++ angry_words)%list.

(** No override phrase occurs in [s]. *)
Definition OverrideFree (s : string) : Prop :=
  forall w, In w override_phrases -> ~ Substring w s.




(** The six emotion labels. *)
Definition labels : list string :=
  ["happy"; "sad"; "anxious"; "angry"; "crisis"; "neutral"].

(** The call wrote one new row to the [Alert] table. *)
Definition raises_alert (user_id : Z) (ts user_msg emotion : string) (db : DB)
  : Prop :=
  exists a,
    alerts (snd (respond user_id ts user_msg emotion db)) = (alerts db ++ [a])%list.

(** The call left the [Alert] table as it was. *)
Definition no_alert (user_id : Z) (ts user_msg emotion : string) (db : DB)
  : Prop :=
  alerts (snd (respond user_id ts user_msg emotion db)) = alerts db.

(** Every word of [ws] is its own lowercase form. *)
Definition is_lowercase (ws : list string) : Prop :=
  Forall (fun w => lower w = w) ws.

(** A database to run the examples on. *)
Definition db0 : DB := mkDB [] [].

(** ** Python and Flask values used by the other views *)

Module PyWeb.

(** [c.isspace()], the white space that [str.strip] removes. *)
Definition is_space (c : N) : bool := in_ranges space_ranges c.

(** [s.lstrip()]. *)
Fixpoint lstrip (s : string) : string :=
  match s with
  | EmptyString => EmptyString
  | String c s' => if is_space c then lstrip s' else s
  end.

(** [s.rstrip()]. *)
Fixpoint rstrip (s : string) : string :=
  match s with
  | EmptyString => EmptyString
  | String c s' =>
      match rstrip s' with
      | EmptyString => if is_space c then EmptyString else String c EmptyString
      | r => String c r
      end
  end.

(** [s.strip()]. *)
Definition strip (s : string) : string := rstrip (lstrip s).

(** Truth value of a string: [if s:]. *)
Definition truthy (s : string) : bool := negb (String.eqb s "").

(** [request.form]: the posted fields, first value first. *)
Definition Form : Type := list (string * string).

(** [request.form.get(k)], [None] when the field is absent. *)
Fixpoint form_get (form : Form) (k : string) : option string :=
  match form with
  | [] => None
  | (k', v) :: form' => if String.eqb k k' then Some v else form_get form' k
  end.

(** [request.method], for the two methods the views tell apart. *)
Inductive Method : Type := GET | POST.

(** The targets of [url_for]. *)
Inductive Endpoint : Type := EpLogin | EpHome.

(** The two keys of [session] the code uses; [chat_ui] is only ever
    removed, its value is not looked at. *)
Record Session : Type := mkSession {
  sess_user : option Z;
  sess_chat_ui : option string
}.

(** The three readings of the outside world a request can make: the clock,
    read once or twice, and the randomness bcrypt salts with. *)
Record Env : Type := mkEnv {
  env_ts : string;
  env_ts2 : string;
  env_salt : string
}.

(** [flask_bcrypt]: the two calls of the code.  [None] stands for a call
    that raised. *)
Class Bcrypt : Type := {
  generate_password_hash : string -> string -> option string;
  check_password_hash : string -> option string -> option bool
}.

(** What the code relies on: a password checks against its own hash. *)
Class BcryptSound (B : Bcrypt) : Prop := {
  check_generated :
    forall salt password pw_hash,
      generate_password_hash salt password = Some pw_hash ->
      check_password_hash pw_hash (Some password) = Some true
}.

End PyWeb.

Import PyWeb.

(** ** models.py: the tables [User] and [Mood] *)

Record User : Type := mkUser {
  usr_id : Z;
  usr_email : string;
  usr_password : string
}.

Record Mood : Type := mkMood {
  mood_user_id : Z;
  mood_mood : string;
  mood_time : string
}.

(** The whole database: [User] and [Mood] beside the two tables of [DB],
    each oldest row first. *)
Record Site : Type := mkSite {
  users : list User;
  moods : list Mood;
  site_db : DB
}.

(** The id SQLite gives a new [User] row: one above the largest in use. *)
Definition next_id (us : list User) : Z :=
  (1 + fold_right Z.max 0 (map usr_id us))%Z.

(** [db.session.get(User, id)] *)
Definition get_user (us : list User) (id : Z) : option User :=
  find (fun u => Z.eqb (usr_id u) id) us.

(** [User.query.filter_by(email=email).first()] *)
Definition first_by_email (us : list User) (email : string) : option User :=
  find (fun u => String.eqb (usr_email u) email) us.

(** [user.email if user else "Unknown"] *)
Definition email_or_unknown (user : option User) : string :=
  match user with
  | Some u => usr_email u
  | None => "Unknown"
  end.

(** ** app.py: what the views render *)

(** One entry of [chat_history]. *)
Record Turn : Type := mkTurn {
  turn_sender : string;
  turn_text : string;
  turn_time : string
}.

(** One entry of [formatted] in [advisor]. *)
Record AlertView : Type := mkAlertView {
  av_email : string;
  av_message : string;
  av_risk : string;
  av_time : string;
  av_user_id : Z
}.

Inductive Response : Type :=
| Redirect (target : Endpoint)
| RegisterPage (error : option string)
| LoginPage (error : option string)
| HomePage (user : string)
| ChatPage (chat : list Turn)
| TrackerPage (mood_log : list Mood)
| AdvisorPage (rows : list AlertView)
| TherapistPage (email : string)
| NotFound (body : string)
| ReportPage (names : list string) (counts : list nat)
| Raised (exception : string).

(** A view returns its response and leaves a session and a database. *)
Definition Outcome : Type := Response * Session * Site.

Definition View : Type := Env -> Session -> Site -> Outcome.

(** Lines 47-54: [login_required]. *)
Definition login_required (fn : View) : View :=
  fun e s w =>
    match sess_user s with
    | None => (Redirect EpLogin, s, w)
    | Some _ => fn e s w
    end.

(** Lines 65-67: [root]. *)
Definition root : View :=
  fun e s w => (Redirect EpLogin, s, w).

(** Lines 72-89: [register]. *)
Definition register `{Bcrypt} (m : Method) (form : Form) : View :=
  fun e s w =>
    match m with
    | POST =>
        let email := strip (dict_get form "email" "") in
        let password := dict_get form "password" "" in
        match first_by_email (users w) email with
        | Some _ => (RegisterPage (Some "Account already exists."), s, w)
        | None =>
            match generate_password_hash (env_salt e) password with
            | None => (Raised "generate_password_hash", s, w)
            | Some hashed_pw =>
                let new_user := mkUser (next_id (users w)) email hashed_pw in
                (Redirect EpLogin, s,
                 mkSite (users w ++ [new_user])%list (moods w) (site_db w))
            end
        end
    | GET => (RegisterPage None, s, w)
    end.

(** Lines 94-116: [login]. *)
Definition login `{Bcrypt} (m : Method) (form : Form) : View :=
  fun e s w =>
    match m with
    | POST =>
        let email := strip (dict_get form "email" "") in
        let password := form_get form "password" in
        match first_by_email (users w) email with
        | None => (LoginPage (Some "Invalid email or password."), s, w)
        | Some user =>
            match check_password_hash (usr_password user) password with
            | None => (Raised "check_password_hash", s, w)
            | Some true =>
                (Redirect EpHome, mkSession (Some (usr_id user)) None, w)
            | Some false =>
                (LoginPage (Some "Invalid email or password."), s, w)
            end
        end
    | GET => (LoginPage None, s, w)
    end.

(** Lines 121-125: [logout]. *)
Definition logout : View :=
  fun e s w => (Redirect EpLogin, mkSession None None, w).

(** Lines 130-136: [home], under its decorator. *)
Definition home_view : View :=
  fun e s w =>
    match sess_user s with
    | None => (Raised "KeyError", s, w)
    | Some uid => (HomePage (email_or_unknown (get_user (users w) uid)), s, w)
    end.

Definition home : View := login_required home_view.

(** Lines 147-148 of [chat]: the stored turns of one user, oldest first. *)
Definition chat_history (uid : Z) (db : DB) : list Turn :=
  map (fun m => mkTurn (chat_sender m) (chat_text m) (chat_time m))
      (filter (fun m => Z.eqb (chat_user_id m) uid) (chats db)).

(** Lines 143-203: [chat], under its decorator. *)
Definition chat_view (m : Method) (form : Form) : View :=
  fun e s w =>
    match sess_user s with
    | None => (Raised "KeyError", s, w)
    | Some user_id =>
        let history := chat_history user_id (site_db w) in
        match m with
        | POST =>
            let user_msg := strip (dict_get form "message" "") in
            if truthy user_msg then
              let ts := env_ts e in
              let db := add_chat (mkChat user_id "user" user_msg ts) (site_db w) in
              let history := (history ++ [mkTurn "user" user_msg ts])%list in
              let emotion := detect_emotion (Some user_msg) in
              let (bot_reply, db) := respond user_id ts user_msg emotion db in
              let ts2 := env_ts2 e in
              let db := add_chat (mkChat user_id "bot" bot_reply ts2) db in
              let history := (history ++ [mkTurn "bot" bot_reply ts2])%list in
              (ChatPage history, s, mkSite (users w) (moods w) db)
            else (ChatPage history, s, w)
        | GET => (ChatPage history, s, w)
        end
    end.

Definition chat (m : Method) (form : Form) : View :=
  login_required (chat_view m form).

(** Line 224 of [tracker]: the moods of one user, newest first. *)
Definition mood_log (uid : Z) (ms : list Mood) : list Mood :=
  rev (filter (fun m => Z.eqb (mood_user_id m) uid) ms).

(** Lines 210-225: [tracker], under its decorator. *)
Definition tracker_view (m : Method) (form : Form) : View :=
  fun e s w =>
    match sess_user s with
    | None => (Raised "KeyError", s, w)
    | Some user_id =>
        let w :=
          match m with
          | POST =>
              let mood := dict_get form "mood" "" in
              if truthy mood then
                mkSite (users w)
                       (moods w ++ [mkMood user_id mood (env_ts e)])%list
                       (site_db w)
              else w
          | GET => w
          end in
        (TrackerPage (mood_log user_id (moods w)), s, w)
    end.

Definition tracker (m : Method) (form : Form) : View :=
  login_required (tracker_view m form).

(** Lines 234-246 of [advisor]: every alert, newest first, with the e-mail
    of its user. *)
Definition advisor_rows (us : list User) (db : DB) : list AlertView :=
  map (fun a =>
         let user := get_user us (alert_user_id a) in
         mkAlertView (email_or_unknown user) (alert_message a) (alert_risk a)
                     (alert_time a) (alert_user_id a))
      (rev (alerts db)).

(** Lines 232-248: [advisor], under its decorator. *)
Definition advisor_view : View :=
  fun e s w => (AdvisorPage (advisor_rows (users w) (site_db w)), s, w).

Definition advisor : View := login_required advisor_view.

(** Lines 257-259 of [therapist]: the page for an id that the lookup of
    line 256 can bind, the 404 page when no user has it. *)
Definition therapist_view (user_id : Z) : View :=
  fun e s w =>
    match get_user (users w) user_id with
    | None => (NotFound "User not found", s, w)
    | Some user => (TherapistPage (usr_email user), s, w)
    end.

(** SQLite binds an integer of 64 bits: [db.session.get] raises
    [OverflowError] on any other. *)
Definition fits_int64 (n : Z) : bool :=
  ((- 2 ^ 63 <=? n) && (n <? 2 ^ 63))%Z.

(** Lines 253-259: [therapist], under its decorator, for the id the URL
    converter read. *)
Definition therapist (user_id : Z) : View :=
  login_required
    (fun e s w =>
       if fits_int64 user_id then therapist_view user_id e s w
       else (Raised "OverflowError", s, w)).

(** Lines 270-277 of [report]. *)
Definition report_names : list string :=
  ["Happy"; "Sad"; "Anxious"; "Stressed"; "Calm"].

(** [sum(1 for m in moods if m.mood == name)] *)
Definition count_mood (name : string) (ms : list Mood) : nat :=
  list_sum (map (fun _ => 1%nat)
                (filter (fun m => String.eqb (mood_mood m) name) ms)).

Definition report_counts (uid : Z) (all : list Mood) : list nat :=
  let ms := filter (fun m => Z.eqb (mood_user_id m) uid) all in
  [ count_mood "Happy" ms; count_mood "Sad" ms; count_mood "Anxious" ms;
    count_mood "Stressed" ms; count_mood "Calm" ms ].

(** Lines 266-279: [report], under its decorator. *)
Definition report_view : View :=
  fun e s w =>
    match sess_user s with
    | None => (Raised "KeyError", s, w)
    | Some user_id =>
        (ReportPage report_names (report_counts user_id (moods w)), s, w)
    end.

Definition report : View := login_required report_view.

(** ** The application as a transition system *)

(** A request that reaches a view, with what the view reads of it. *)
Inductive Request : Type :=
| ReqRoot
| ReqRegister (m : Method) (form : Form)
| ReqLogin (m : Method) (form : Form)
| ReqLogout
| ReqHome
| ReqChat (m : Method) (form : Form)
| ReqTracker (m : Method) (form : Form)
| ReqAdvisor
| ReqTherapist (user_id : Z)
| ReqReport.

Definition handle `{Bcrypt} (r : Request) : View :=
  match r with
  | ReqRoot => root
  | ReqRegister m form => register m form
  | ReqLogin m form => login m form
  | ReqLogout => logout
  | ReqHome => home
  | ReqChat m form => chat m form
  | ReqTracker m form => tracker m form
  | ReqAdvisor => advisor
  | ReqTherapist user_id => therapist user_id
  | ReqReport => report
  end.

(** The sessions of the browsers, by browser number; each browser sends
    back the session it was last given. *)
Definition Sessions : Type := nat -> Session.

Definition set_session (ss : Sessions) (c : nat) (s : Session) : Sessions :=
  fun c' => if Nat.eqb c' c then s else ss c'.

(** The sessions and the database after a sequence of requests, each with
    the browser it comes from and what it reads of the outside world. *)
Fixpoint run `{Bcrypt} (trace : list (nat * Request * Env))
         (ss : Sessions) (w : Site) : Sessions * Site :=
  match trace with
  | [] => (ss, w)
  | (c, r, e) :: trace' =>
      let '(_, s', w') := handle r e (ss c) w in
      run trace' (set_session ss c s') w'
  end.

(** A fresh installation, and browsers without a session. *)
Definition site0 : Site := mkSite [] [] db0.
Definition session0 : Session := mkSession None None.
Definition sessions0 : Sessions := fun _ => session0.

(** ** Vocabulary of the statements on the views *)

(** [new] is [old] with rows added at the end. *)
Definition Extends {A : Type} (old new : list A) : Prop :=
  exists added, new = (old ++ added)%list.

(** Every character of [s] is white space. *)
Fixpoint all_space (s : string) : bool :=
  match s with
  | EmptyString => true
  | String c s' => is_space c && all_space s'
  end.


(** [id] is the id of a row of [User]. *)
Definition known (us : list User) (id : Z) : Prop :=
  In id (map usr_id us).

(** Ids and e-mails of [User] are unique, and every session and every row
    of the other tables refers to a row of [User]. *)
Definition Consistent (ss : Sessions) (w : Site) : Prop :=
  NoDup (map usr_id (users w)) /\
  NoDup (map usr_email (users w)) /\
  (forall c uid, sess_user (ss c) = Some uid -> known (users w) uid) /\
  Forall (fun m => known (users w) (chat_user_id m)) (chats (site_db w)) /\
  Forall (fun a => known (users w) (alert_user_id a)) (alerts (site_db w)) /\
  Forall (fun m => known (users w) (mood_user_id m)) (moods w).

(** The alerts of one user, oldest first. *)
Definition alerts_of (uid : Z) (db : DB) : list Alert :=
  filter (fun a => Z.eqb (alert_user_id a) uid) (alerts db).

(** The text alone decides the alert: a crisis keyword, no keyword of an
    earlier table and no override phrase, all in the lowercased text. *)
Definition alarming (msg : string) : bool :=
  any_in hopeless_words (lower msg)
  && negb (any_in earlier_words (lower msg))
  && negb (any_in override_phrases (lower msg)).

(** Readings of the clock and of the salt to run the statements on. *)
Definition env0 : Env :=
  mkEnv "2024-05-01 10:00:00" "2024-05-01 10:00:01" "salt".

(** Every character of [s] is an ASCII character. *)
Fixpoint ascii_only (s : string) : bool :=
  match s with
  | EmptyString => true
  | String c s' => (c <? 128)%N && ascii_only s'
  end.

(** The nine replies the chat can store. *)
Definition known_replies : list string :=
  [reply_help; reply_not_okay; reply_alone; reply_crisis]
  ++ map snd responses.

(** A toy implementation of the bcrypt interface, to run the statements
    on: the hash is a separator and the password, whatever the salt. *)
Definition toy_hash (password : string) : string := "$" ++ password.

Definition toy_bcrypt : Bcrypt := {|
  generate_password_hash := fun _ password => Some (toy_hash password);
  check_password_hash := fun pw_hash password =>
    match password with
    | None => None
    | Some p => Some (String.eqb pw_hash (toy_hash p))
    end
|}.

(** ** Facts about the string operations *)

Module StringFacts.

Lemma eqb_refl (s : string) : String.eqb s s = true.
Proof.
  induction s as [|c s IH]; simpl; [reflexivity|].
  now rewrite N.eqb_refl, IH.
Qed.

Lemma eqb_eq (s1 s2 : string) : String.eqb s1 s2 = true <-> s1 = s2.
Proof.
  split; [|intros ->; apply eqb_refl].
  revert s2. induction s1 as [|c s1 IH]; intros [|d s2]; simpl;
    try discriminate; [reflexivity|].
  intros H. apply andb_true_iff in H as [Hc Hs].
  apply N.eqb_eq in Hc. now rewrite Hc, (IH s2 Hs).
Qed.

Lemma eqb_neq (s1 s2 : string) : String.eqb s1 s2 = false <-> s1 <> s2.
Proof.
  rewrite <- eqb_eq. now destruct (String.eqb s1 s2).
Qed.

Lemma eqb_spec (s1 s2 : string) : reflect (s1 = s2) (String.eqb s1 s2).
Proof.
  destruct (String.eqb s1 s2) eqn:E; constructor.
  - now apply eqb_eq.
  - now apply eqb_neq.
Qed.

Lemma append_assoc (a b c : string) : (a ++ b) ++ c = a ++ b ++ c.
Proof.
  induction a as [|x a IH]; simpl; [reflexivity | now rewrite IH].
Qed.

Lemma length_append (a b : string) :
  String.length (a ++ b) = (String.length a + String.length b)%nat.
Proof.
  induction a as [|x a IH]; simpl; [reflexivity | now rewrite IH].
Qed.

End StringFacts.

Module PyStrFacts.

Import StringFacts.

Lemma assoc_In (c : N) (m : list (N * list N)) (l : list N) :
  assoc c m = Some l -> In (c, l) m.
Proof.
  induction m as [|[c' l'] m IH]; simpl; [discriminate|].
  destruct (N.eqb_spec c c') as [->|_].
  - intros [= ->]. now left.
  - intros H. right. now apply IH.
Qed.

(** Every code point that a lowercase mapping of the table produces is
    left alone by lowercasing. *)
Lemma lower_map_stable :
  forallb (fun '(_, l) => forallb stable l) lower_map = true.
Proof. vm_compute. reflexivity. Qed.

Lemma lower_map_nonempty :
  forallb (fun '(_, l) => match l with [] => false | _ => true end)
          lower_map = true.
Proof. vm_compute. reflexivity. Qed.

Lemma capital_sigma_mapped : assoc capital_sigma lower_map <> None.
Proof. vm_compute. discriminate. Qed.

Lemma to_lower_full_ascii (c : N) :
  (c <? 128)%N = true ->
  to_lower_full c = [if ((65 <=? c) && (c <=? 90))%N then (c + 32)%N else c].
Proof. unfold to_lower_full. now intros ->. Qed.

Lemma to_lower_full_stable (c : N) : forallb stable (to_lower_full c) = true.
Proof.
  unfold to_lower_full.
  destruct (c <? 128)%N eqn:Ha.
  - apply N.ltb_lt in Ha. simpl. rewrite andb_true_r. unfold stable.
    destruct ((65 <=? c) && (c <=? 90))%N eqn:Hu.
    + apply andb_true_iff in Hu as [H1 H2].
      apply N.leb_le in H1, H2.
      assert (Hn : N.eqb (c + 32) capital_sigma = false)
        by (apply N.eqb_neq; unfold capital_sigma; lia).
      rewrite Hn. simpl. unfold to_lower_full.
      assert (Hl : (c + 32 <? 128)%N = true) by (apply N.ltb_lt; lia).
      rewrite Hl.
      assert (Hr : ((65 <=? c + 32) && (c + 32 <=? 90))%N = false).
      { apply andb_false_iff. right. apply N.leb_gt. lia. }
      rewrite Hr. apply N.eqb_refl.
    + assert (Hn : N.eqb c capital_sigma = false)
        by (apply N.eqb_neq; unfold capital_sigma; lia).
      rewrite Hn. simpl. unfold to_lower_full.
      assert (Hl : (c <? 128)%N = true) by (apply N.ltb_lt; lia).
      rewrite Hl, Hu. apply N.eqb_refl.
  - destruct (assoc c lower_map) as [l|] eqn:Hm.
    + apply assoc_In in Hm.
      pose proof lower_map_stable as Ht.
      rewrite forallb_forall in Ht. exact (Ht (c, l) Hm).
    + simpl. rewrite andb_true_r. unfold stable, to_lower_full.
      rewrite Ha, Hm, N.eqb_refl, andb_true_r.
      apply negb_true_iff, N.eqb_neq. intros ->.
      now apply capital_sigma_mapped.
Qed.

Lemma to_lower_full_nonempty (c : N) : to_lower_full c <> [].
Proof.
  unfold to_lower_full. destruct (c <? 128)%N; [discriminate|].
  destruct (assoc c lower_map) as [l|] eqn:Hm; [|discriminate].
  apply assoc_In in Hm.
  pose proof lower_map_nonempty as Ht.
  rewrite forallb_forall in Ht. specialize (Ht (c, l) Hm).
  now destruct l.
Qed.

Lemma sigmas_stable : stable final_sigma = true /\ stable small_sigma = true.
Proof. split; vm_compute; reflexivity. Qed.

Lemma stable_spec (c : N) :
  stable c = true -> N.eqb c capital_sigma = false /\ to_lower_full c = [c].
Proof.
  unfold stable. intros H. apply andb_true_iff in H as [Hs Ht].
  apply negb_true_iff in Hs. split; [exact Hs|].
  destruct (to_lower_full c) as [|d [|? ?]]; try discriminate.
  apply N.eqb_eq in Ht. now rewrite Ht.
Qed.

Lemma all_stable_append (a b : string) :
  all_stable (a ++ b) = all_stable a && all_stable b.
Proof.
  induction a as [|c a IH]; simpl; [reflexivity|].
  now rewrite IH, andb_assoc.
Qed.

Lemma all_stable_of_list (l : list N) :
  all_stable (String.of_list l) = forallb stable l.
Proof.
  induction l as [|c l IH]; simpl; [reflexivity | now rewrite IH].
Qed.

(** What [lower] produces is left alone by [lower]. *)
Lemma lower_from_all_stable (s : string) :
  forall p, all_stable (lower_from p s) = true.
Proof.
  induction s as [|c s IH]; intros p; simpl; [reflexivity|].
  rewrite all_stable_append, all_stable_of_list, IH, andb_true_r.
  destruct (N.eqb c capital_sigma).
  - simpl. rewrite andb_true_r.
    destruct (p && negb (followed_by_cased s)); apply sigmas_stable.
  - apply to_lower_full_stable.
Qed.

Lemma lower_from_fixed (s : string) :
  all_stable s = true -> forall p, lower_from p s = s.
Proof.
  induction s as [|c s IH]; simpl; [reflexivity|].
  intros H p. apply andb_true_iff in H as [Hc Hs].
  apply stable_spec in Hc as [Hn Ht].
  rewrite Hn, Ht. simpl. now rewrite IH.
Qed.

Lemma lower_idem (s : string) : lower (lower s) = lower s.
Proof.
  unfold lower. apply lower_from_fixed, lower_from_all_stable.
Qed.

(** Lowercasing a concatenation lowercases its second part in place, from
    the state the first part leaves. *)
Lemma lower_from_append (a b : string) :
  forall p, exists a' p', lower_from p (a ++ b) = a' ++ lower_from p' b.
Proof.
  induction a as [|c a IH]; intros p; simpl.
  - now exists "", p.
  - destruct (IH (if is_case_ignorable c then p else is_cased c))
      as (a' & p' & ->).
    eexists _, p'. now rewrite <- append_assoc.
Qed.

Lemma lower_from_stable_prefix (w b : string) :
  all_stable w = true ->
  forall p, exists p', lower_from p (w ++ b) = w ++ lower_from p' b.
Proof.
  induction w as [|c w IH]; simpl; intros H p.
  - now exists p.
  - apply andb_true_iff in H as [Hc Hw].
    apply stable_spec in Hc as [Hn Ht]. rewrite Hn, Ht. simpl.
    destruct (IH Hw (if is_case_ignorable c then p else is_cased c))
      as (p' & ->).
    now exists p'.
Qed.

Lemma lower_from_length (s : string) :
  forall p, (String.length s <= String.length (lower_from p s))%nat.
Proof.
  induction s as [|c s IH]; intros p; simpl; [lia|].
  rewrite length_append.
  specialize (IH (if is_case_ignorable c then p else is_cased c)).
  assert (1 <= String.length
                 (String.of_list
                    (if N.eqb c capital_sigma
                     then [if p && negb (followed_by_cased s)
                           then final_sigma else small_sigma]
                     else to_lower_full c)))%nat.
  { destruct (N.eqb c capital_sigma); simpl; [lia|].
    pose proof (to_lower_full_nonempty c).
    destruct (to_lower_full c); [contradiction | simpl; lia]. }
  lia.
Qed.

(** A word that [lower] returns unchanged consists of code points that
    lowercasing leaves alone. *)
Lemma lower_from_fixed_stable (w : string) :
  forall p, lower_from p w = w -> all_stable w = true.
Proof.
  induction w as [|c w IH]; intros p H; simpl in *; [reflexivity|].
  pose proof (lower_from_length w (if is_case_ignorable c then p else is_cased c))
    as Hlen.
  pose proof (f_equal String.length H) as Hl.
  rewrite length_append in Hl. simpl in Hl.
  destruct (N.eqb_spec c capital_sigma) as [Hs|Hs].
  - simpl in H. injection H as Hc _. exfalso. subst c.
    destruct (p && negb (followed_by_cased w)); discriminate.
  - pose proof (to_lower_full_nonempty c) as Hne.
    destruct (to_lower_full c) as [|d [|d' l]] eqn:Ht;
      [contradiction | | simpl in Hl; lia].
    simpl in H. injection H as Hd Hw. subst d.
    rewrite (IH _ Hw), andb_true_r.
    unfold stable. rewrite Ht, N.eqb_refl, andb_true_r.
    apply negb_true_iff. now apply N.eqb_neq.
Qed.

Lemma startswith_app (w b : string) : startswith w (w ++ b) = true.
Proof.
  induction w as [|c w IH]; simpl.
  - reflexivity.
  - now rewrite N.eqb_refl, IH.
Qed.

Lemma startswith_inv (w : string) :
  forall s, startswith w s = true -> exists b, s = w ++ b.
Proof.
  induction w as [|c w IH]; intros s H.
  - now exists s.
  - destruct s as [|d s]; simpl in H; [discriminate|].
    apply andb_true_iff in H as [Hc Hw].
    apply N.eqb_eq in Hc. subst d.
    destruct (IH s Hw) as [b ->].
    now exists b.
Qed.

Lemma contains_unfold (w s : string) :
  contains w s =
  startswith w s
  || match s with
     | EmptyString => false
     | String _ s' => contains w s'
     end.
Proof. destruct s; reflexivity. Qed.

(** The executable test [contains] decides [Substring]. *)
Lemma contains_Substring (w s : string) :
  contains w s = true <-> Substring w s.
Proof.
  split.
  - induction s as [|c s IH]; rewrite contains_unfold; intros H;
      apply orb_true_iff in H as [H|H].
    + apply startswith_inv in H as [b ->]. now exists "", b.
    + discriminate.
    + apply startswith_inv in H as [b ->]. now exists "", b.
    + destruct (IH H) as (a & b & ->). now exists (String c a), b.
  - intros (a & b & ->).
    induction a as [|c a IH]; rewrite contains_unfold.
    + simpl. now rewrite startswith_app.
    + simpl. rewrite IH. apply orb_true_r.
Qed.

Lemma contains_false (w s : string) :
  contains w s = false <-> ~ Substring w s.
Proof.
  rewrite <- contains_Substring. now destruct (contains w s).
Qed.

Lemma any_in_Occurs (ws : list string) (s : string) :
  any_in ws s = true <-> Occurs ws s.
Proof.
  unfold any_in, Occurs. rewrite existsb_exists.
  split; intros (w & Hin & H); exists w; split; trivial;
    now apply contains_Substring.
Qed.

Lemma any_in_false (ws : list string) (s : string) :
  any_in ws s = false <-> ~ Occurs ws s.
Proof.
  rewrite <- any_in_Occurs. now destruct (any_in ws s).
Qed.

(** Lowercasing the text keeps every occurrence of a lowercase word. *)
Lemma Substring_lower (w s : string) :
  lower w = w -> Substring w s -> Substring w (lower s).
Proof.
  intros Hw (a & b & ->).
  apply lower_from_fixed_stable in Hw.
  unfold lower.
  destruct (lower_from_append a (w ++ b) false) as (a' & p & ->).
  destruct (lower_from_stable_prefix w b Hw p) as (p' & ->).
  now exists a', (lower_from p' b).
Qed.

Lemma Occurs_lower (ws : list string) (s : string) :
  Forall (fun w => lower w = w) ws -> Occurs ws s -> Occurs ws (lower s).
Proof.
  intros Hws (w & Hin & Hsub).
  exists w. split; trivial.
  apply Substring_lower; trivial.
  now apply (proj1 (Forall_forall _ _) Hws).
Qed.

Lemma Occurs_app (ws1 ws2 : list string) (s : string) :
  Occurs (ws1 ++ ws2)%list s <-> Occurs ws1 s \/ Occurs ws2 s.
Proof.
  unfold Occurs. split.
  - intros (w & Hin & H). apply in_app_or in Hin as [Hin|Hin]; eauto.
  - intros [(w & Hin & H)|(w & Hin & H)]; exists w; split; trivial;
      apply in_or_app; auto.
Qed.

End PyStrFacts.

Import PyStrFacts.

(** ** Facts about the keyword tables *)

Lemma happy_words_lowercase : is_lowercase happy_words.
Proof. repeat constructor. Qed.

Lemma sad_words_lowercase : is_lowercase sad_words.
Proof. repeat constructor. Qed.

Lemma anxious_words_lowercase : is_lowercase anxious_words.
Proof. repeat constructor. Qed.

Lemma angry_words_lowercase : is_lowercase angry_words.
Proof. repeat constructor. Qed.

Lemma hopeless_words_lowercase : is_lowercase hopeless_words.
Proof. repeat constructor. Qed.

Lemma override_phrases_lowercase : is_lowercase override_phrases.
Proof. repeat constructor. Qed.

(** [detect_emotion] as a cascade over the lowercased text. *)
Lemma detect_emotion_Some (s : string) :
  detect_emotion (Some s) =
  let t := lower s in
  if any_in happy_words t then "happy"
  else if any_in sad_words t then "sad"
  else if any_in anxious_words t then "anxious"
  else if any_in angry_words t then "angry"
  else if any_in hopeless_words t then "crisis"
  else "neutral".
Proof. reflexivity. Qed.

Lemma detect_emotion_label (x : option string) : In (detect_emotion x) labels.
Proof.
  unfold detect_emotion, labels.
  repeat match goal with
         | |- context [if ?b then _ else _] => destruct b
         end; simpl; tauto.
Qed.

Lemma detect_emotion_lower (s : string) :
  detect_emotion (Some (lower s)) = detect_emotion (Some s).
Proof.
  unfold detect_emotion. simpl or_empty. now rewrite lower_idem.
Qed.

(** ** The classifier *)

(** C1: [detect_emotion] consults the five keyword tables in the order
    happy, sad, anxious, angry, crisis, by substring occurrence in the
    lowercased text; the first table with an occurring word decides the
    label whatever the later tables hold, and the label is neutral when no
    word of any table occurs.  A text in which both "happy" and "sad"
    occur is labelled happy. *)
Theorem detect_emotion_priority (s : string) :
  let t := lower s in
  (Occurs happy_words t -> detect_emotion (Some s) = "happy") /\
  (~ Occurs happy_words t -> Occurs sad_words t ->
   detect_emotion (Some s) = "sad") /\
  (~ Occurs happy_words t -> ~ Occurs sad_words t ->
   Occurs anxious_words t -> detect_emotion (Some s) = "anxious") /\
  (~ Occurs happy_words t -> ~ Occurs sad_words t ->
   ~ Occurs anxious_words t -> Occurs angry_words t ->
   detect_emotion (Some s) = "angry") /\
  (~ Occurs happy_words t -> ~ Occurs sad_words t ->
   ~ Occurs anxious_words t -> ~ Occurs angry_words t ->
   Occurs hopeless_words t -> detect_emotion (Some s) = "crisis") /\
  (~ Occurs happy_words t -> ~ Occurs sad_words t ->
   ~ Occurs anxious_words t -> ~ Occurs angry_words t ->
   ~ Occurs hopeless_words t -> detect_emotion (Some s) = "neutral") /\
  (Substring "happy" s -> Substring "sad" s ->
   detect_emotion (Some s) = "happy").
Proof.
  intros t. rewrite detect_emotion_Some. fold t. cbv zeta.
  repeat split; intros;
    repeat match goal with
           | H : Occurs _ t |- _ => apply any_in_Occurs in H; rewrite H
           | H : ~ Occurs _ t |- _ => apply any_in_false in H; rewrite H
           end; try reflexivity.
  assert (Hh : Occurs happy_words t).
  { exists "happy". split; [simpl; tauto|].
    now apply Substring_lower. }
  apply any_in_Occurs in Hh. now rewrite Hh.
Qed.

Lemma detect_emotion_priority_witness :
  detect_emotion (Some "Happy at noon, SAD at night") = "happy".
Proof.
  apply (proj1 (detect_emotion_priority "Happy at noon, SAD at night")).
  apply any_in_Occurs. reflexivity.
Defined.

(** C5: [detect_emotion] has no error case: the empty string is labelled
    neutral, an absent text ([None]) is read as the empty string and is
    labelled neutral too, and every input gets a label. *)
Theorem detect_emotion_total :
  detect_emotion (Some "") = "neutral" /\
  detect_emotion None = "neutral" /\
  detect_emotion None = detect_emotion (Some "") /\
  forall x : option string, exists l, detect_emotion x = l /\ In l labels.
Proof.
  repeat split; try reflexivity.
  intros x. exists (detect_emotion x). split; [reflexivity|].
  apply detect_emotion_label.
Qed.

(** C8: the text is lowercased before matching, so a string and its
    lowercase form get the same label, and so do any two strings with the
    same lowercase form; "HAPPY" is labelled happy, as "happy" is, and a
    keyword written with the Kelvin sign for its k is matched too. *)
Theorem detect_emotion_case_insensitive :
  (forall s : string, detect_emotion (Some s) = detect_emotion (Some (lower s))) /\
  (forall s t : string,
      lower s = lower t -> detect_emotion (Some s) = detect_emotion (Some t)) /\
  lower "HAPPY" = "happy" /\
  detect_emotion (Some "HAPPY") = detect_emotion (Some "happy") /\
  detect_emotion (Some "HAPPY") = "happy" /\
  detect_emotion (Some (String kelvin_sign "ILL MYSELF")) = "crisis".
Proof.
  split; [|split; [|repeat split; reflexivity]].
  - intros s. symmetry. apply detect_emotion_lower.
  - intros s t H. rewrite !detect_emotion_Some. cbv zeta. now rewrite H.
Qed.






(** ** Facts about the reply selection *)

(** [respond] as a cascade over the phrase lists. *)
Lemma respond_cascade (uid : Z) (ts text label : string) (db : DB) :
  respond uid ts text label db =
  let t := lower text in
  if any_in help_phrases t then (reply_help, db)
  else if any_in not_okay_phrases t then (reply_not_okay, db)
  else if any_in alone_phrases t then (reply_alone, db)
  else if String.eqb label "crisis" then
    (reply_crisis, add_alert (mkAlert uid "High" text ts) db)
  else (dict_get responses label reply_default, db).
Proof.
  unfold respond, any_in, help_phrases, not_okay_phrases, alone_phrases.
  simpl existsb. rewrite !orb_false_r, !orb_assoc. reflexivity.
Qed.

Lemma any_in_override (t : string) :
  any_in override_phrases t =
  any_in help_phrases t || any_in not_okay_phrases t || any_in alone_phrases t.
Proof.
  unfold any_in, override_phrases.
  now rewrite !existsb_app, orb_assoc.
Qed.

Lemma OverrideFree_any_in (t : string) :
  OverrideFree t <-> any_in override_phrases t = false.
Proof.
  rewrite any_in_false. unfold OverrideFree, Occurs. split.
  - intros H (w & Hin & Hs). exact (H w Hin Hs).
  - intros H w Hin Hs. apply H. now exists w.
Qed.

(** The [Alert] table after the call. *)
Lemma respond_alerts (uid : Z) (ts text label : string) (db : DB) :
  alerts (snd (respond uid ts text label db)) =
  if negb (any_in override_phrases (lower text)) && String.eqb label "crisis"
  then (alerts db ++ [mkAlert uid "High" text ts])%list
  else alerts db.
Proof.
  rewrite respond_cascade, any_in_override. cbv zeta.
  destruct (any_in help_phrases (lower text)); [reflexivity|].
  destruct (any_in not_okay_phrases (lower text)); [reflexivity|].
  destruct (any_in alone_phrases (lower text)); [reflexivity|].
  destruct (String.eqb label "crisis"); reflexivity.
Qed.

Lemma snoc_neq {A : Type} (l : list A) (a : A) : (l ++ [a])%list <> l.
Proof.
  intros H. apply (f_equal (@List.length A)) in H.
  rewrite length_app in H. simpl in H. lia.
Qed.

Lemma raises_alert_iff (uid : Z) (ts text label : string) (db : DB) :
  raises_alert uid ts text label db <->
  any_in override_phrases (lower text) = false /\ label = "crisis".
Proof.
  unfold raises_alert. rewrite respond_alerts, <- StringFacts.eqb_eq.
  destruct (any_in override_phrases (lower text)), (String.eqb label "crisis");
    simpl; split.
  all: try (intros [a H]; symmetry in H; now apply snoc_neq in H).
  all: try (intros [? ?]; discriminate).
  - now intros _.
  - intros _. now eexists.
Qed.

Lemma no_alert_iff (uid : Z) (ts text label : string) (db : DB) :
  no_alert uid ts text label db <-> ~ raises_alert uid ts text label db.
Proof.
  rewrite raises_alert_iff, <- StringFacts.eqb_eq.
  unfold no_alert. rewrite respond_alerts.
  destruct (any_in override_phrases (lower text)), (String.eqb label "crisis");
    simpl; split; intros H; try reflexivity;
    try (intros [? ?]; discriminate).
  - now apply snoc_neq in H.
  - exfalso. now apply H.
Qed.

Lemma respond_lower_reply (uid : Z) (ts text label : string) (db : DB) :
  fst (respond uid ts (lower text) label db) = fst (respond uid ts text label db).
Proof.
  rewrite !respond_cascade. cbv zeta. rewrite lower_idem.
  repeat match goal with
         | |- context [if ?b then _ else _] => destruct b
         end; reflexivity.
Qed.

(** Without an override phrase in the lowercased text, the label decides. *)
Lemma respond_override_free (uid : Z) (ts text label : string) (db : DB) :
  OverrideFree (lower text) ->
  respond uid ts text label db =
  if String.eqb label "crisis" then
    (reply_crisis, add_alert (mkAlert uid "High" text ts) db)
  else (dict_get responses label reply_default, db).
Proof.
  intros Hov. apply OverrideFree_any_in in Hov.
  rewrite any_in_override in Hov.
  apply orb_false_iff in Hov as [Hov Ha].
  apply orb_false_iff in Hov as [Hh Hn].
  rewrite respond_cascade. cbv zeta. now rewrite Hh, Hn, Ha.
Qed.

Lemma OverrideFree_lower (s : string) :
  OverrideFree (lower s) -> OverrideFree s.
Proof.
  intros H w Hin Hs. apply (H w Hin).
  apply Substring_lower; trivial.
  exact (proj1 (Forall_forall _ _) override_phrases_lowercase w Hin).
Qed.

Lemma no_alert_not_crisis (uid : Z) (ts text label : string) (db : DB) :
  label <> "crisis" -> no_alert uid ts text label db.
Proof.
  intros Hc. apply StringFacts.eqb_neq in Hc.
  unfold no_alert. now rewrite respond_alerts, Hc, andb_false_r.
Qed.

Lemma earlier_words_lowercase : is_lowercase earlier_words.
Proof. repeat constructor. Qed.

(** A keyword of the first four tables decides the label before the crisis
    table is reached. *)
Lemma detect_emotion_earlier (s : string) :
  Occurs earlier_words (lower s) ->
  In (detect_emotion (Some s)) ["happy"; "sad"; "anxious"; "angry"] /\
  detect_emotion (Some s) <> "crisis".
Proof.
  intros Hocc. unfold earlier_words in Hocc. rewrite !Occurs_app in Hocc.
  rewrite detect_emotion_Some. cbv zeta.
  destruct (any_in happy_words (lower s)) eqn:Hh;
    [split; [simpl; tauto | discriminate]|].
  destruct (any_in sad_words (lower s)) eqn:Hs;
    [split; [simpl; tauto | discriminate]|].
  destruct (any_in anxious_words (lower s)) eqn:Hx;
    [split; [simpl; tauto | discriminate]|].
  destruct (any_in angry_words (lower s)) eqn:Hg;
    [split; [simpl; tauto | discriminate]|].
  exfalso. apply any_in_false in Hh, Hs, Hx, Hg. tauto.
Qed.


(** ** The reply selection *)

(** C2: [respond] writes an alert row exactly when the label is crisis and
    none of the eight override phrases occurs in the text, the occurrence
    being tested as the code tests it, on the lowercased text.  A call
    writes at most one row.  When it writes one, the reply is the
    safety-concern reply and the row has risk "High", the message as it was
    typed (not lowercased), and the caller's user id and time stamp; no
    override phrase occurs in the text as typed either. *)
Theorem respond_alert_iff (uid : Z) (ts text label : string) (db : DB) :
  (raises_alert uid ts text label db <->
   label = "crisis" /\ OverrideFree (lower text)) /\
  (no_alert uid ts text label db \/
   alerts (snd (respond uid ts text label db)) =
     (alerts db ++ [mkAlert uid "High" text ts])%list) /\
  (raises_alert uid ts text label db ->
   respond uid ts text label db =
     (reply_crisis, add_alert (mkAlert uid "High" text ts) db) /\
   alerts (snd (respond uid ts text label db)) =
     (alerts db ++ [mkAlert uid "High" text ts])%list /\
   OverrideFree text) /\
  (~ raises_alert uid ts text label db -> no_alert uid ts text label db).
Proof.
  split; [|split; [|split]].
  - rewrite raises_alert_iff, OverrideFree_any_in. tauto.
  - unfold no_alert. rewrite respond_alerts.
    destruct (negb _ && _); [right | left]; reflexivity.
  - intros H. apply raises_alert_iff in H as [Hov ->].
    apply OverrideFree_any_in in Hov.
    rewrite (respond_override_free _ _ _ _ _ Hov). simpl.
    repeat split. now apply OverrideFree_lower.
  - apply no_alert_iff.
Qed.

Lemma respond_alert_iff_witness :
  raises_alert 7 "2024-05-01 10:00:00" "There is no hope, I GIVE UP" "crisis" db0.
Proof.
  apply (proj2 (proj1 (respond_alert_iff
           7 "2024-05-01 10:00:00" "There is no hope, I GIVE UP" "crisis" db0))).
  split; [reflexivity|].
  apply OverrideFree_any_in. reflexivity.
Defined.

(** The label is that of the first of the four earlier tables with a
    keyword in the lowercased text. *)
Lemma detect_emotion_first (s : string) :
  let t := lower s in
  (Occurs happy_words t -> detect_emotion (Some s) = "happy") /\
  (~ Occurs happy_words t -> Occurs sad_words t ->
   detect_emotion (Some s) = "sad") /\
  (~ Occurs happy_words t -> ~ Occurs sad_words t ->
   Occurs anxious_words t -> detect_emotion (Some s) = "anxious") /\
  (~ Occurs happy_words t -> ~ Occurs sad_words t ->
   ~ Occurs anxious_words t -> Occurs angry_words t ->
   detect_emotion (Some s) = "angry").
Proof.
  intros t. rewrite detect_emotion_Some. fold t. cbv zeta.
  repeat split; intros;
    repeat match goal with
           | H : Occurs _ t |- _ => apply any_in_Occurs in H; rewrite H
           | H : ~ Occurs _ t |- _ => apply any_in_false in H; rewrite H
           end; reflexivity.
Qed.

(** C3: a text in which a crisis keyword occurs together with a keyword of
    one of the four tables consulted earlier, and no override phrase, gets
    the label of the first of these four tables with a keyword in the
    lowercased text, never crisis, so [respond] writes no alert row and
    answers with the canned reply of that label.  The first part reads
    the occurrences as the code tests them, on the lowercased text; the
    second reads them on the text as typed, where the label and the
    absence of an alert still follow.  "I am sad and want to kill myself"
    is labelled sad and gets the sad reply with no alert. *)
Theorem crisis_masked_by_earlier_table :
  (forall (uid : Z) (ts s : string) (db : DB),
      Occurs hopeless_words (lower s) ->
      Occurs earlier_words (lower s) ->
      OverrideFree (lower s) ->
      let l := detect_emotion (Some s) in
      In l ["happy"; "sad"; "anxious"; "angry"] /\
      l <> "crisis" /\
      (Occurs happy_words (lower s) -> l = "happy") /\
      (~ Occurs happy_words (lower s) -> Occurs sad_words (lower s) ->
       l = "sad") /\
      (~ Occurs happy_words (lower s) -> ~ Occurs sad_words (lower s) ->
       Occurs anxious_words (lower s) -> l = "anxious") /\
      (~ Occurs happy_words (lower s) -> ~ Occurs sad_words (lower s) ->
       ~ Occurs anxious_words (lower s) -> l = "angry") /\
      no_alert uid ts s l db /\
      respond uid ts s l db = (dict_get responses l reply_default, db)) /\
  (forall (uid : Z) (ts s : string) (db : DB),
      Occurs hopeless_words s ->
      Occurs earlier_words s ->
      OverrideFree s ->
      let l := detect_emotion (Some s) in
      In l ["happy"; "sad"; "anxious"; "angry"] /\
      l <> "crisis" /\
      (Occurs happy_words s -> l = "happy") /\
      (~ Occurs happy_words (lower s) -> Occurs sad_words s -> l = "sad") /\
      (~ Occurs happy_words (lower s) -> ~ Occurs sad_words (lower s) ->
       Occurs anxious_words s -> l = "anxious") /\
      (~ Occurs happy_words (lower s) -> ~ Occurs sad_words (lower s) ->
       ~ Occurs anxious_words (lower s) -> l = "angry") /\
      no_alert uid ts s l db) /\
  (forall (uid : Z) (ts : string) (db : DB),
      let s := "I am sad and want to kill myself" in
      detect_emotion (Some s) = "sad" /\
      respond uid ts s (detect_emotion (Some s)) db =
        ("😢 I'm sorry you're feeling low. Want to talk about it?", db) /\
      no_alert uid ts s (detect_emotion (Some s)) db).
Proof.
  assert (Hangry : forall s,
             Occurs earlier_words (lower s) ->
             ~ Occurs happy_words (lower s) -> ~ Occurs sad_words (lower s) ->
             ~ Occurs anxious_words (lower s) ->
             detect_emotion (Some s) = "angry").
  { intros s Hocc Hh Hs Hx.
    apply (proj2 (proj2 (proj2 (detect_emotion_first s)))); trivial.
    unfold earlier_words in Hocc. rewrite !Occurs_app in Hocc. tauto. }
  split; [|split]; [| |intros; repeat split; reflexivity].
  - intros uid ts s db _ Hocc Hov l.
    destruct (detect_emotion_earlier s Hocc) as [Hl Hc].
    destruct (detect_emotion_first s) as (F1 & F2 & F3 & _). cbv zeta in *.
    fold l in Hl, Hc, F1, F2, F3.
    split; [exact Hl|]. split; [exact Hc|]. split; [exact F1|].
    split; [exact F2|]. split; [exact F3|].
    split; [now apply Hangry|].
    split; [now apply no_alert_not_crisis|].
    apply StringFacts.eqb_neq in Hc.
    now rewrite (respond_override_free _ _ _ _ _ Hov), Hc.
  - intros uid ts s db _ Hocc _ l.
    apply Occurs_lower in Hocc; [|exact earlier_words_lowercase].
    destruct (detect_emotion_earlier s Hocc) as [Hl Hc].
    destruct (detect_emotion_first s) as (F1 & F2 & F3 & _). cbv zeta in *.
    fold l in Hl, Hc, F1, F2, F3.
    split; [exact Hl|]. split; [exact Hc|].
    split; [intros H; apply F1, Occurs_lower;
            [exact happy_words_lowercase | exact H]|].
    split; [intros Hh H; apply F2; [exact Hh|]; apply Occurs_lower;
            [exact sad_words_lowercase | exact H]|].
    split; [intros Hh Hs H; apply F3; [exact Hh | exact Hs|];
            apply Occurs_lower; [exact anxious_words_lowercase | exact H]|].
    split; [now apply Hangry|].
    now apply no_alert_not_crisis.
Qed.

Lemma crisis_masked_by_earlier_table_witness :
  let s := "I am so MAD I could die" in
  let l := detect_emotion (Some s) in
  l = "angry" /\
  no_alert 7 "2024-05-01 10:00:00" s l db0 /\
  respond 7 "2024-05-01 10:00:00" s l db0 =
    ("😠 Your feelings are valid. What triggered the anger?", db0).
Proof.
  cbv zeta.
  destruct (proj1 crisis_masked_by_earlier_table
              7%Z "2024-05-01 10:00:00" "I am so MAD I could die" db0)
    as (_ & _ & _ & _ & _ & Hangry & Hno & Hr).
  - apply any_in_Occurs. reflexivity.
  - apply any_in_Occurs. reflexivity.
  - apply OverrideFree_any_in. reflexivity.
  - cbv zeta in Hangry.
    assert (Hl : detect_emotion (Some "I am so MAD I could die") = "angry").
    { apply Hangry; apply any_in_false; reflexivity. }
    split; [exact Hl|]. split; [exact Hno|].
    rewrite Hr, Hl. reflexivity.
Defined.

(** C4: when "help", "assist" or "support" occurs in the text, as typed or
    after lowercasing, [respond] returns the offer-to-help reply and writes
    no alert row, whatever the label, crisis included. *)
Theorem help_override (uid : Z) (ts text label : string) (db : DB) :
  Occurs help_phrases text \/ Occurs help_phrases (lower text) ->
  respond uid ts text label db = (reply_help, db) /\
  no_alert uid ts text label db /\
  respond uid ts text "crisis" db = (reply_help, db) /\
  no_alert uid ts text "crisis" db.
Proof.
  intros H.
  assert (Hh : any_in help_phrases (lower text) = true).
  { apply any_in_Occurs. destruct H as [H|H]; [|exact H].
    apply Occurs_lower; [repeat constructor | exact H]. }
  assert (Hr : forall l, respond uid ts text l db = (reply_help, db)).
  { intros l. rewrite respond_cascade. cbv zeta. now rewrite Hh. }
  unfold no_alert. rewrite !Hr. repeat split.
Qed.

Lemma help_override_witness :
  let text := "please help me, I want to die" in
  detect_emotion (Some text) = "crisis" /\
  respond 7 "2024-05-01 10:00:00" text "crisis" db0 = (reply_help, db0) /\
  no_alert 7 "2024-05-01 10:00:00" text "crisis" db0.
Proof.
  cbv zeta. split; [reflexivity|].
  apply (help_override 7 "2024-05-01 10:00:00"
           "please help me, I want to die" "crisis" db0).
  left. apply any_in_Occurs. reflexivity.
Defined.

(** C6: "I feel hopeless and want to die" is labelled crisis; [respond] on
    it with the label crisis returns the safety-concern reply and writes
    exactly one alert row, with risk "High" and the message as typed.  The
    POST branch of [chat], which chains the two, leaves that one new row in
    the [Alert] table. *)
Theorem hopeless_example (uid : Z) (ts ts2 : string) (db : DB) :
  let text := "I feel hopeless and want to die" in
  let alert := mkAlert uid "High" "I feel hopeless and want to die" ts in
  detect_emotion (Some text) = "crisis" /\
  respond uid ts text "crisis" db = (reply_crisis, add_alert alert db) /\
  alerts (snd (respond uid ts text "crisis" db)) = (alerts db ++ [alert])%list /\
  alert_risk alert = "High" /\
  alert_message alert = "I feel hopeless and want to die" /\
  alerts (chat_post uid text ts ts2 db) = (alerts db ++ [alert])%list.
Proof.
  cbv zeta. repeat split; reflexivity.
Qed.

(** C7: "I'm hurt" is labelled sad through the keyword "hurt", but
    [respond] answers from override branch 2, since "hurt" occurs in the
    text: the reply is the "not okay" reply, which is not the canned sad
    reply, and no alert row is written. *)
Theorem hurt_example (uid : Z) (ts : string) (db : DB) :
  let text := "I'm hurt" in
  detect_emotion (Some text) = "sad" /\
  contains "hurt" (lower text) = true /\
  respond uid ts text (detect_emotion (Some text)) db = (reply_not_okay, db) /\
  reply_not_okay <> dict_get responses "sad" reply_default /\
  no_alert uid ts text (detect_emotion (Some text)) db.
Proof.
  cbv zeta. repeat split; try reflexivity.
  intros H. apply StringFacts.eqb_eq in H. vm_compute in H. discriminate.
Qed.

(** C10: [respond] lowercases the text before the override tests, so the
    text and its lowercase form get the same reply and the same decision on
    the alert, and so do any two texts with the same lowercase form; "HELP
    ME" is answered by the offer-to-help branch, and "NOT OKAY" written
    with the Kelvin sign by the "not okay" branch. *)
Theorem respond_case_insensitive (uid : Z) (ts text label : string) (db : DB) :
  fst (respond uid ts text label db) =
    fst (respond uid ts (lower text) label db) /\
  (raises_alert uid ts text label db <->
   raises_alert uid ts (lower text) label db) /\
  (forall text' : string,
      lower text = lower text' ->
      fst (respond uid ts text label db) = fst (respond uid ts text' label db) /\
      (raises_alert uid ts text label db <->
       raises_alert uid ts text' label db)) /\
  respond uid ts "HELP ME" label db = (reply_help, db) /\
  respond uid ts ("NOT O" ++ String kelvin_sign "AY") label db = (reply_not_okay, db).
Proof.
  split; [|split; [|split; [|split]]].
  - symmetry. apply respond_lower_reply.
  - rewrite !raises_alert_iff, lower_idem. reflexivity.
  - intros text' H. split.
    + rewrite <- (respond_lower_reply uid ts text),
        <- (respond_lower_reply uid ts text').
      now rewrite H.
    + rewrite !raises_alert_iff. now rewrite H.
  - reflexivity.
  - reflexivity.
Qed.

(** ** Facts about stripping and form fields *)

Module PyWebFacts.

Lemma lstrip_all_space (s : string) : all_space s = true -> lstrip s = "".
Proof.
  induction s as [|c s IH]; simpl; [reflexivity|].
  intros H. apply andb_true_iff in H as [Hc Hs]. rewrite Hc. now apply IH.
Qed.

Lemma lstrip_not_all_space (s : string) :
  all_space s = false ->
  exists c r, lstrip s = String c r /\ is_space c = false.
Proof.
  induction s as [|c s IH]; simpl; [discriminate|].
  destruct (is_space c) eqn:Hc; simpl.
  - exact IH.
  - intros _. now exists c, s.
Qed.

Lemma rstrip_keeps_head (c : N) (r : string) :
  is_space c = false -> rstrip (String c r) <> "".
Proof.
  intros Hc. simpl. rewrite Hc. now destruct (rstrip r).
Qed.

(** A stripped field is empty exactly when the field is all white space. *)
Lemma truthy_strip (s : string) : truthy (strip s) = negb (all_space s).
Proof.
  unfold truthy, strip. destruct (all_space s) eqn:Hs.
  - now rewrite lstrip_all_space.
  - destruct (lstrip_not_all_space s Hs) as (c & r & -> & Hc).
    apply rstrip_keeps_head with (r := r) in Hc.
    apply StringFacts.eqb_neq in Hc. now rewrite Hc.
Qed.

Lemma truthy_true (s : string) : truthy s = true <-> s <> "".
Proof.
  unfold truthy. rewrite negb_true_iff. apply StringFacts.eqb_neq.
Qed.

Lemma dict_get_form_get (form : Form) (k p : string) :
  form_get form k = Some p -> forall d, dict_get form k d = p.
Proof.
  induction form as [|[k' v] form IH]; simpl; [discriminate|].
  destruct (String.eqb k k'); [now intros [= ->] | exact IH].
Qed.

Lemma dict_get_absent (form : Form) (k d : string) :
  form_get form k = None -> dict_get form k d = d.
Proof.
  induction form as [|[k' v] form IH]; simpl; [reflexivity|].
  destruct (String.eqb k k'); [discriminate | exact IH].
Qed.

End PyWebFacts.

Import PyWebFacts.

(** ** Facts about the chat view *)

Lemma any_in_earlier (t : string) :
  any_in earlier_words t =
  any_in happy_words t || any_in sad_words t
  || any_in anxious_words t || any_in angry_words t.
Proof.
  unfold any_in, earlier_words.
  now rewrite !existsb_app, !orb_assoc.
Qed.

(** The label is crisis exactly when a crisis keyword occurs and no keyword
    of an earlier table does. *)
Lemma detect_emotion_crisis (s : string) :
  String.eqb (detect_emotion (Some s)) "crisis" =
  any_in hopeless_words (lower s) && negb (any_in earlier_words (lower s)).
Proof.
  rewrite detect_emotion_Some, any_in_earlier. cbv zeta.
  destruct (any_in happy_words (lower s)); [now rewrite andb_false_r|].
  destruct (any_in sad_words (lower s)); [now rewrite andb_false_r|].
  destruct (any_in anxious_words (lower s)); [now rewrite andb_false_r|].
  destruct (any_in angry_words (lower s)); [now rewrite andb_false_r|].
  now destruct (any_in hopeless_words (lower s)).
Qed.

Lemma respond_chats (uid : Z) (ts text label : string) (db : DB) :
  chats (snd (respond uid ts text label db)) = chats db.
Proof.
  rewrite respond_cascade. cbv zeta.
  repeat match goal with
         | |- context [if ?b then _ else _] => destruct b
         end; reflexivity.
Qed.

Lemma respond_reply (uid : Z) (ts text label : string) (db db' : DB) :
  fst (respond uid ts text label db) = fst (respond uid ts text label db').
Proof.
  rewrite !respond_cascade. cbv zeta.
  repeat match goal with
         | |- context [if ?b then _ else _] => destruct b
         end; reflexivity.
Qed.

(** The alert decision of [respond] on the classifier's own label. *)
Lemma respond_alerts_alarming (uid : Z) (ts msg : string) (db : DB) :
  alerts (snd (respond uid ts msg (detect_emotion (Some msg)) db)) =
  if alarming msg then (alerts db ++ [mkAlert uid "High" msg ts])%list
  else alerts db.
Proof.
  rewrite respond_alerts, detect_emotion_crisis. unfold alarming.
  destruct (any_in override_phrases (lower msg)),
           (any_in hopeless_words (lower msg)),
           (any_in earlier_words (lower msg)); reflexivity.
Qed.

(** [chat_post] on a message that is not empty, table by table. *)
Lemma chat_post_tables (uid : Z) (msg ts ts2 : string) (db : DB) :
  msg <> "" ->
  chat_post uid msg ts ts2 db =
  mkDB (chats db ++
        [ mkChat uid "user" msg ts;
          mkChat uid "bot"
                 (fst (respond uid ts msg (detect_emotion (Some msg)) db)) ts2 ])%list
       (if alarming msg then (alerts db ++ [mkAlert uid "High" msg ts])%list
        else alerts db).
Proof.
  intros Hne. apply StringFacts.eqb_neq in Hne.
  unfold chat_post. rewrite Hne.
  rewrite <- respond_alerts_alarming.
  rewrite (respond_reply uid ts msg _ db
             (add_chat (mkChat uid "user" msg ts) db)).
  pose proof (respond_chats uid ts msg (detect_emotion (Some msg))
                (add_chat (mkChat uid "user" msg ts) db)) as Hc.
  pose proof (respond_alerts uid ts msg (detect_emotion (Some msg))
                (add_chat (mkChat uid "user" msg ts) db)) as Ha.
  rewrite respond_alerts.
  destruct (respond uid ts msg (detect_emotion (Some msg))
              (add_chat (mkChat uid "user" msg ts) db)) as [reply db1].
  simpl in *. unfold add_chat. rewrite Hc, Ha. simpl.
  now rewrite <- app_assoc.
Qed.

Lemma chat_post_empty (uid : Z) (ts ts2 : string) (db : DB) :
  chat_post uid "" ts ts2 db = db.
Proof. reflexivity. Qed.

Lemma chat_history_app (uid : Z) (cs cs' : list Chat) (al al' : list Alert) :
  chat_history uid (mkDB (cs ++ cs') al) =
  (chat_history uid (mkDB cs al') ++ chat_history uid (mkDB cs' al'))%list.
Proof.
  unfold chat_history. simpl. now rewrite filter_app, map_app.
Qed.

Lemma chat_history_chats (uid : Z) (db db' : DB) :
  chats db = chats db' -> chat_history uid db = chat_history uid db'.
Proof. unfold chat_history. now intros ->. Qed.

Lemma alarming_iff (msg : string) :
  alarming msg = true <->
  Occurs hopeless_words (lower msg) /\
  ~ Occurs earlier_words (lower msg) /\
  OverrideFree (lower msg).
Proof.
  unfold alarming.
  rewrite !andb_true_iff, !negb_true_iff, any_in_Occurs, any_in_false,
    OverrideFree_any_in.
  tauto.
Qed.

Lemma chat_post_alerts (uid : Z) (msg ts ts2 : string) (db : DB) :
  alerts (chat_post uid msg ts ts2 db) =
  if alarming msg then (alerts db ++ [mkAlert uid "High" msg ts])%list
  else alerts db.
Proof.
  destruct (StringFacts.eqb_spec msg "") as [-> | Hne].
  - reflexivity.
  - now rewrite chat_post_tables.
Qed.

Lemma chat_post_chats (uid : Z) (msg ts ts2 : string) (db : DB) :
  msg <> "" ->
  chats (chat_post uid msg ts ts2 db) =
  (chats db ++
   [ mkChat uid "user" msg ts;
     mkChat uid "bot"
            (fst (respond uid ts msg (detect_emotion (Some msg)) db)) ts2 ])%list.
Proof. intros Hne. now rewrite chat_post_tables. Qed.

(** On the classifier's own label the reply is one of the nine stored
    replies. *)
Lemma respond_known_reply (uid : Z) (ts msg : string) (db : DB) :
  In (fst (respond uid ts msg (detect_emotion (Some msg)) db)) known_replies.
Proof.
  rewrite respond_cascade. cbv zeta.
  destruct (any_in help_phrases (lower msg)); [simpl; tauto|].
  destruct (any_in not_okay_phrases (lower msg)); [simpl; tauto|].
  destruct (any_in alone_phrases (lower msg)); [simpl; tauto|].
  pose proof (detect_emotion_label (Some msg)) as Hl.
  unfold labels in Hl. simpl in Hl.
  destruct Hl as [<-|[<-|[<-|[<-|[<-|[<-|[]]]]]]]; simpl; tauto.
Qed.

Lemma reply_default_unknown : ~ In reply_default known_replies.
Proof.
  unfold known_replies. simpl.
  intros H.
  repeat match goal with
         | H : _ \/ _ |- _ => destruct H as [H|H]
         end; try contradiction;
    apply StringFacts.eqb_eq in H; vm_compute in H; discriminate.
Qed.

Lemma chat_history_chat_post (uid : Z) (msg ts ts2 : string) (db : DB) :
  msg <> "" ->
  chat_history uid (chat_post uid msg ts ts2 db) =
  (chat_history uid db ++
   [ mkTurn "user" msg ts;
     mkTurn "bot"
            (fst (respond uid ts msg (detect_emotion (Some msg)) db)) ts2 ])%list.
Proof.
  intros Hne. unfold chat_history. rewrite chat_post_chats by exact Hne.
  rewrite filter_app, map_app. simpl. now rewrite Z.eqb_refl.
Qed.

Lemma chat_history_chat_post_other (uid uid' : Z) (msg ts ts2 : string) (db : DB) :
  uid' <> uid ->
  chat_history uid' (chat_post uid msg ts ts2 db) = chat_history uid' db.
Proof.
  intros Hu. destruct (StringFacts.eqb_spec msg "") as [-> | Hne]; [reflexivity|].
  unfold chat_history. rewrite chat_post_chats by exact Hne.
  rewrite filter_app, map_app. simpl.
  apply not_eq_sym, Z.eqb_neq in Hu. rewrite Hu. simpl.
  now rewrite app_nil_r.
Qed.

(** The chat view, in terms of [chat_post]. *)
Lemma chat_view_spec (m : Method) (form : Form) (e : Env) (s : Session)
      (w : Site) (uid : Z) :
  sess_user s = Some uid ->
  let msg := strip (dict_get form "message" "") in
  let db' := match m with
             | POST => chat_post uid msg (env_ts e) (env_ts2 e) (site_db w)
             | GET => site_db w
             end in
  exists w',
    chat_view m form e s w = (ChatPage (chat_history uid db'), s, w') /\
    users w' = users w /\ moods w' = moods w /\ site_db w' = db'.
Proof.
  intros Hs msg db'. unfold chat_view. rewrite Hs.
  destruct m; [exists w; repeat split|].
  fold msg. destruct (truthy msg) eqn:Hm.
  - apply truthy_true in Hm.
    assert (Hh := chat_history_chat_post uid msg (env_ts e) (env_ts2 e)
                    (site_db w) Hm).
    subst db'. unfold chat_post in *.
    apply StringFacts.eqb_neq in Hm. rewrite Hm in *.
    rewrite (respond_reply uid (env_ts e) msg _ (site_db w)
               (add_chat (mkChat uid "user" msg (env_ts e)) (site_db w))) in Hh.
    destruct (respond uid (env_ts e) msg (detect_emotion (Some msg))
                (add_chat (mkChat uid "user" msg (env_ts e)) (site_db w)))
      as [reply db1].
    exists (mkSite (users w) (moods w)
              (add_chat (mkChat uid "bot" reply (env_ts2 e)) db1)).
    repeat split. simpl in Hh. rewrite Hh.
    now rewrite <- app_assoc.
  - assert (Hm' : msg = "").
    { unfold truthy in Hm. apply negb_false_iff in Hm.
      now apply StringFacts.eqb_eq. }
    subst db'. rewrite Hm'. exists w. repeat split.
Qed.

(** ** Facts about the mood tracker and the report *)

Lemma count_mood_length (name : string) (ms : list Mood) :
  count_mood name ms =
  List.length (filter (fun m => String.eqb (mood_mood m) name) ms).
Proof.
  unfold count_mood.
  induction (filter (fun m => String.eqb (mood_mood m) name) ms) as [|m l IH];
    simpl; [reflexivity | now rewrite IH].
Qed.

Lemma count_mood_snoc (name : string) (ms : list Mood) (m : Mood) :
  count_mood name (ms ++ [m]) =
  (count_mood name ms + if String.eqb (mood_mood m) name then 1 else 0)%nat.
Proof.
  rewrite !count_mood_length, filter_app, length_app. simpl.
  now destruct (String.eqb (mood_mood m) name).
Qed.

Lemma mood_log_snoc (uid : Z) (ms : list Mood) (m : Mood) :
  mood_log uid (ms ++ [m]) =
  if Z.eqb (mood_user_id m) uid then m :: mood_log uid ms else mood_log uid ms.
Proof.
  unfold mood_log. rewrite filter_app. simpl.
  destruct (Z.eqb (mood_user_id m) uid).
  - now rewrite rev_unit.
  - now rewrite app_nil_r.
Qed.

Lemma report_counts_snoc (uid : Z) (ms : list Mood) (m : Mood) :
  report_counts uid (ms ++ [m]) =
  if Z.eqb (mood_user_id m) uid then
    map (fun '(name, c) =>
           (c + if String.eqb (mood_mood m) name then 1 else 0)%nat)
        (combine report_names (report_counts uid ms))
  else report_counts uid ms.
Proof.
  unfold report_counts. rewrite filter_app. simpl.
  destruct (Z.eqb (mood_user_id m) uid).
  - rewrite !count_mood_snoc. reflexivity.
  - now rewrite app_nil_r.
Qed.

(** Every entry is counted under its own name if that is one of the five,
    and not at all otherwise. *)
Lemma report_counts_partition (ms : list Mood) :
  (count_mood "Happy" ms + count_mood "Sad" ms + count_mood "Anxious" ms
   + count_mood "Stressed" ms + count_mood "Calm" ms
   + List.length
       (filter (fun m => negb (existsb (String.eqb (mood_mood m)) report_names)) ms)
   = List.length ms)%nat.
Proof.
  rewrite !count_mood_length.
  induction ms as [|m ms IH]; [reflexivity|].
  simpl filter. unfold report_names in *. simpl existsb in *.
  destruct (StringFacts.eqb_spec (mood_mood m) "Happy") as [E|_];
    [rewrite E; simpl; lia|].
  destruct (StringFacts.eqb_spec (mood_mood m) "Sad") as [E|_];
    [rewrite E; simpl; lia|].
  destruct (StringFacts.eqb_spec (mood_mood m) "Anxious") as [E|_];
    [rewrite E; simpl; lia|].
  destruct (StringFacts.eqb_spec (mood_mood m) "Stressed") as [E|_];
    [rewrite E; simpl; lia|].
  destruct (StringFacts.eqb_spec (mood_mood m) "Calm") as [E|_];
    [simpl; lia|].
  simpl. lia.
Qed.

(** The tracker view, table and page. *)
Lemma tracker_view_spec (m : Method) (form : Form) (e : Env) (s : Session)
      (w : Site) (uid : Z) :
  sess_user s = Some uid ->
  let mood := dict_get form "mood" "" in
  let ms' := match m with
             | POST => if truthy mood
                       then (moods w ++ [mkMood uid mood (env_ts e)])%list
                       else moods w
             | GET => moods w
             end in
  exists w',
    tracker_view m form e s w = (TrackerPage (mood_log uid ms'), s, w') /\
    users w' = users w /\ moods w' = ms' /\ site_db w' = site_db w.
Proof.
  intros Hs mood ms'. unfold tracker_view. rewrite Hs. fold mood.
  destruct m; [exists w; repeat split|].
  subst ms'. destruct (truthy mood).
  - eexists (mkSite _ _ _). repeat split.
  - exists w. repeat split.
Qed.

(** ** Facts about the advisor page *)

Lemma advisor_rows_alerts (us : list User) (db db' : DB) :
  alerts db = alerts db' -> advisor_rows us db = advisor_rows us db'.
Proof. unfold advisor_rows. now intros ->. Qed.

Lemma advisor_rows_chat_post (us : list User) (uid : Z) (msg ts ts2 : string)
      (db : DB) :
  advisor_rows us (chat_post uid msg ts ts2 db) =
  ((if alarming msg
    then [mkAlertView (email_or_unknown (get_user us uid)) msg "High" ts uid]
    else []) ++ advisor_rows us db)%list.
Proof.
  unfold advisor_rows. rewrite chat_post_alerts.
  destruct (alarming msg); [|reflexivity].
  now rewrite rev_unit.
Qed.

Lemma get_user_known (us : list User) (id : Z) :
  known us id <-> exists u, get_user us id = Some u.
Proof.
  unfold known, get_user. induction us as [|u us IH]; simpl.
  - split; [tauto | intros [u H]; discriminate].
  - destruct (Z.eqb_spec (usr_id u) id) as [E|E].
    + split; [eauto | tauto].
    + rewrite <- IH. tauto.
Qed.

Lemma get_user_id (us : list User) (id : Z) (u : User) :
  get_user us id = Some u -> In u us /\ usr_id u = id.
Proof.
  unfold get_user. intros H. apply find_some in H as [Hin E].
  now apply Z.eqb_eq in E.
Qed.

(** ** Facts about the [User] table *)

Lemma first_by_email_None (us : list User) (email : string) :
  first_by_email us email = None <-> ~ In email (map usr_email us).
Proof.
  unfold first_by_email. induction us as [|u us IH]; simpl; [tauto|].
  destruct (StringFacts.eqb_spec (usr_email u) email) as [E|E].
  - split; [discriminate | tauto].
  - destruct IH as [IH1 IH2]. split.
    + intros H [Hu|Hin]; [contradiction | now apply IH1 in H].
    + intros H. apply IH2. tauto.
Qed.

Lemma first_by_email_snoc (us : list User) (u : User) :
  first_by_email us (usr_email u) = None ->
  first_by_email (us ++ [u]) (usr_email u) = Some u.
Proof.
  unfold first_by_email. induction us as [|v us IH]; simpl.
  - now rewrite StringFacts.eqb_refl.
  - destruct (String.eqb (usr_email v) (usr_email u)); [discriminate | exact IH].
Qed.

Lemma ids_below_next (us : list User) (id : Z) :
  In id (map usr_id us) -> (id < next_id us)%Z.
Proof.
  unfold next_id. induction us as [|u us IH]; cbn [map fold_right In]; [tauto|].
  intros [<-|H]; [lia|]. specialize (IH H). lia.
Qed.

Lemma next_id_fresh (us : list User) : ~ known us (next_id us).
Proof.
  intros H. apply ids_below_next in H. lia.
Qed.

Lemma NoDup_snoc {A : Type} (l : list A) (x : A) :
  NoDup l -> ~ In x l -> NoDup (l ++ [x]).
Proof.
  intros Hl Hx. apply NoDup_app; [exact Hl | repeat constructor; tauto |].
  intros a Ha [<-|[]]. contradiction.
Qed.

Lemma known_app (us us' : list User) (id : Z) :
  known us id -> known (us ++ us') id.
Proof.
  unfold known. rewrite map_app. intros H. apply in_or_app. now left.
Qed.

(** ** One request *)

Section OneRequest.

Context {B : Bcrypt}.

(** Solves the cases in which the request leaves a table as it was. *)
Ltac unchanged :=
  solve [ simpl;
          repeat match goal with
                 | |- _ /\ _ => split
                 | |- _ = _ \/ _ => left; congruence
                 | |- exists added, ?l = (?l ++ added)%list /\ _ =>
                     exists []; split; [now rewrite app_nil_r | constructor]
                 end ].

(** What a request can do: add one user with a fresh id and an unused
    e-mail; log the browser in as a stored user or out; add chat, alert and
    mood rows under the id of the logged-in user.  Nothing else. *)
Lemma handle_summary (r : Request) (e : Env) (s : Session) (w : Site) :
  let s' := snd (fst (handle r e s w)) in
  let w' := snd (handle r e s w) in
  (users w' = users w \/
   exists email pw,
     first_by_email (users w) email = None /\
     users w' = (users w ++ [mkUser (next_id (users w)) email pw])%list) /\
  (sess_user s' = sess_user s \/ sess_user s' = None \/
   exists u, In u (users w) /\ sess_user s' = Some (usr_id u)) /\
  (exists added,
     chats (site_db w') = (chats (site_db w) ++ added)%list /\
     Forall (fun m => sess_user s = Some (chat_user_id m)) added) /\
  (exists added,
     alerts (site_db w') = (alerts (site_db w) ++ added)%list /\
     Forall (fun a => sess_user s = Some (alert_user_id a)) added) /\
  (exists added,
     moods w' = (moods w ++ added)%list /\
     Forall (fun m => sess_user s = Some (mood_user_id m)) added).
Proof.
  cbv zeta. destruct r as [|m form|m form| | |m form|m form| |uid|]; simpl handle.
  - unfold root. unchanged.
  - unfold register. destruct m; [unchanged|].
    destruct (first_by_email (users w) _) eqn:Hf; [unchanged|].
    destruct (generate_password_hash _ _) as [pw|]; [|unchanged].
    simpl. split; [|unchanged]. right. eauto.
  - unfold login. destruct m; [unchanged|].
    destruct (first_by_email (users w) _) as [u|] eqn:Hf; [|unchanged].
    destruct (check_password_hash _ _) as [[|]|]; try unchanged.
    simpl. split; [now left|]. split; [|unchanged].
    right; right. exists u. split; [|reflexivity].
    now apply find_some in Hf.
  - unfold logout. simpl. split; [now left|]. split; [tauto|]. unchanged.
  - unfold home, login_required, home_view.
    destruct (sess_user s) eqn:Hs; unchanged.
  - unfold chat, login_required. destruct (sess_user s) as [uid|] eqn:Hs;
      [|unchanged].
    destruct (chat_view_spec m form e s w uid Hs) as (w' & -> & Hu & Hm & Hdb).
    simpl. rewrite Hu, Hm, Hdb. clear Hu Hm Hdb.
    split; [now left|]. split; [now left|].
    destruct m; [unchanged|].
    destruct (StringFacts.eqb_spec (strip (dict_get form "message" "")) "")
      as [E | Hne]; [rewrite E, chat_post_empty; unchanged|].
    rewrite chat_post_tables by exact Hne. simpl.
    split; [|split]; [| |unchanged].
    + eexists. split; [reflexivity|]. repeat constructor.
    + destruct (alarming _); [|unchanged].
      eexists. split; [reflexivity|]. repeat constructor.
  - unfold tracker, login_required. destruct (sess_user s) as [uid|] eqn:Hs;
      [|unchanged].
    destruct (tracker_view_spec m form e s w uid Hs) as (w' & -> & Hu & Hm & Hdb).
    simpl. rewrite Hu, Hm, Hdb. clear Hu Hm Hdb.
    destruct m; [unchanged|].
    destruct (truthy _); [|unchanged].
    split; [now left|]. split; [now left|]. split; [unchanged|].
    split; [unchanged|].
    eexists. split; [reflexivity|]. repeat constructor.
  - unfold advisor, login_required, advisor_view.
    destruct (sess_user s) eqn:Hs; unchanged.
  - unfold therapist, login_required, therapist_view.
    destruct (sess_user s) eqn:Hs; [|unchanged].
    destruct (fits_int64 uid); [|unchanged].
    destruct (get_user (users w) uid); unchanged.
  - unfold report, login_required, report_view.
    destruct (sess_user s) eqn:Hs; unchanged.
Qed.

End OneRequest.

(** ** Sequences of requests *)

Lemma Extends_refl {A : Type} (l : list A) : Extends l l.
Proof. exists []. now rewrite app_nil_r. Qed.

Lemma Extends_trans {A : Type} (l1 l2 l3 : list A) :
  Extends l1 l2 -> Extends l2 l3 -> Extends l1 l3.
Proof.
  intros [a ->] [b ->]. exists (a ++ b)%list. now rewrite app_assoc.
Qed.

Lemma known_Extends (us us' : list User) (id : Z) :
  Extends us us' -> known us id -> known us' id.
Proof. intros [added ->]. apply known_app. Qed.

Section Traces.

Context {B : Bcrypt}.

Lemma handle_extends (r : Request) (e : Env) (s : Session) (w : Site) :
  let w' := snd (handle r e s w) in
  Extends (users w) (users w') /\
  Extends (moods w) (moods w') /\
  Extends (chats (site_db w)) (chats (site_db w')) /\
  Extends (alerts (site_db w)) (alerts (site_db w')).
Proof.
  cbv zeta.
  destruct (handle_summary r e s w) as (Hu & _ & Hc & Ha & Hm).
  repeat split.
  - destruct Hu as [-> | (email & pw & _ & ->)];
      [apply Extends_refl | now eexists].
  - destruct Hm as (added & -> & _). now eexists.
  - destruct Hc as (added & -> & _). now eexists.
  - destruct Ha as (added & -> & _). now eexists.
Qed.

(** X14: no sequence of requests, from any browsers and in any state,
    deletes or rewrites a stored row: each of the four tables after the
    sequence is the table before it with rows added at the end. *)
Theorem run_extends (trace : list (nat * Request * Env)) :
  forall (ss : Sessions) (w : Site),
    let w' := snd (run trace ss w) in
    Extends (users w) (users w') /\
    Extends (moods w) (moods w') /\
    Extends (chats (site_db w)) (chats (site_db w')) /\
    Extends (alerts (site_db w)) (alerts (site_db w')).
Proof.
  cbv zeta.
  induction trace as [|[[c r] e] trace IH]; intros ss w; simpl.
  - repeat split; apply Extends_refl.
  - pose proof (handle_extends r e (ss c) w) as H. cbv zeta in H.
    destruct (handle r e (ss c) w) as [[resp s'] w'].
    simpl in H. destruct H as (Hu & Hm & Hc & Ha).
    destruct (IH (set_session ss c s') w') as (Hu' & Hm' & Hc' & Ha').
    repeat split; eapply Extends_trans; eassumption.
Qed.

Lemma handle_consistent (c : nat) (r : Request) (e : Env)
      (ss : Sessions) (w : Site) :
  Consistent ss w ->
  Consistent (set_session ss c (snd (fst (handle r e (ss c) w))))
             (snd (handle r e (ss c) w)).
Proof.
  intros (Hid & Hem & Hss & Hcs & Has & Hms).
  destruct (handle_summary r e (ss c) w) as (Hu & Hs & Hc & Ha & Hm).
  destruct (handle_extends r e (ss c) w) as (Hext & _). cbv zeta in *.
  destruct (handle r e (ss c) w) as [[resp s'] w']. simpl in *.
  assert (Hmono : forall id, known (users w) id -> known (users w') id)
    by (intros id; now apply known_Extends).
  assert (Hme : forall uid, sess_user (ss c) = Some uid -> known (users w') uid)
    by (intros uid H; eapply Hmono, Hss, H).
  unfold Consistent. repeat split.
  - destruct Hu as [-> | (email & pw & Hf & ->)]; [exact Hid|].
    rewrite map_app. apply NoDup_snoc; [exact Hid | apply next_id_fresh].
  - destruct Hu as [-> | (email & pw & Hf & ->)]; [exact Hem|].
    rewrite map_app. apply NoDup_snoc; [exact Hem|].
    now apply first_by_email_None.
  - intros c' uid. unfold set_session.
    destruct (Nat.eqb c' c).
    + destruct Hs as [-> | [-> | (u & Hin & ->)]].
      * apply Hme.
      * discriminate.
      * intros [= <-]. apply Hmono. now apply in_map.
    + intros H. eapply Hmono, Hss, H.
  - destruct Hc as (added & -> & Hadd). apply Forall_app. split.
    + eapply Forall_impl; [|exact Hcs]. intros m. apply Hmono.
    + eapply Forall_impl; [|exact Hadd]. intros m. apply Hme.
  - destruct Ha as (added & -> & Hadd). apply Forall_app. split.
    + eapply Forall_impl; [|exact Has]. intros a. apply Hmono.
    + eapply Forall_impl; [|exact Hadd]. intros a. apply Hme.
  - destruct Hm as (added & -> & Hadd). apply Forall_app. split.
    + eapply Forall_impl; [|exact Hms]. intros m. apply Hmono.
    + eapply Forall_impl; [|exact Hadd]. intros m. apply Hme.
Qed.

Lemma run_consistent (trace : list (nat * Request * Env)) :
  forall (ss : Sessions) (w : Site),
    Consistent ss w ->
    Consistent (fst (run trace ss w)) (snd (run trace ss w)).
Proof.
  induction trace as [|[[c r] e] trace IH]; intros ss w H; simpl; [exact H|].
  pose proof (handle_consistent c r e ss w H) as H'.
  destruct (handle r e (ss c) w) as [[resp s'] w']. simpl in H'.
  now apply IH.
Qed.

Lemma Consistent_fresh : Consistent sessions0 site0.
Proof.
  unfold Consistent. simpl. repeat split; try constructor.
  discriminate.
Qed.

End Traces.

(** ** The chat view *)

(** X1: for a logged-in user the chat page shows exactly that user's stored
    history, oldest turn first, as it is in the database the request
    leaves; a POST leaves the database that [chat_post] gives on the
    stripped message, a GET leaves it as it was, and neither touches the
    session, the users or the moods. *)
Theorem chat_page_is_stored_history
        (m : Method) (form : Form) (e : Env) (s : Session) (w : Site) (uid : Z) :
  sess_user s = Some uid ->
  let msg := strip (dict_get form "message" "") in
  let db' := match m with
             | POST => chat_post uid msg (env_ts e) (env_ts2 e) (site_db w)
             | GET => site_db w
             end in
  exists w',
    chat m form e s w = (ChatPage (chat_history uid (site_db w')), s, w') /\
    users w' = users w /\ moods w' = moods w /\ site_db w' = db'.
Proof.
  intros Hs msg db'.
  destruct (chat_view_spec m form e s w uid Hs) as (w' & Hv & Hu & Hm & Hdb).
  exists w'. unfold chat, login_required. rewrite Hs, Hv.
  fold msg db' in Hdb. rewrite Hdb. repeat split; assumption.
Qed.

Lemma chat_page_is_stored_history_witness :
  let msg := String no_break_space ("I give up" ++ String no_break_space " ") in
  exists w',
    chat POST [("message", msg)] env0 (mkSession (Some 7%Z) None) site0 =
      (ChatPage (chat_history 7 (site_db w')), mkSession (Some 7%Z) None, w') /\
    users w' = [] /\ moods w' = [] /\
    site_db w' =
      chat_post 7 "I give up" "2024-05-01 10:00:00" "2024-05-01 10:00:01" db0.
Proof.
  cbv zeta.
  apply (chat_page_is_stored_history
           POST
           [("message",
             String no_break_space ("I give up" ++ String no_break_space " "))]
           env0 (mkSession (Some 7%Z) None) site0 7).
  reflexivity.
Defined.

(** X2: a message that is not empty adds exactly two turns to the end of
    the sender's history, the message as the user's turn and then the
    bot's turn with the reply [respond] gives on the classifier's label;
    the empty message adds nothing. *)
Theorem chat_post_two_turns (uid : Z) (msg ts ts2 : string) (db : DB) :
  msg <> "" ->
  chat_history uid (chat_post uid msg ts ts2 db) =
    (chat_history uid db ++
     [ mkTurn "user" msg ts;
       mkTurn "bot" (fst (respond uid ts msg (detect_emotion (Some msg)) db)) ts2 ])%list /\
  List.length (chats (chat_post uid msg ts ts2 db)) =
    (List.length (chats db) + 2)%nat /\
  chat_post uid "" ts ts2 db = db.
Proof.
  intros Hne. split; [now apply chat_history_chat_post|]. split; [|reflexivity].
  rewrite chat_post_chats by exact Hne. now rewrite length_app.
Qed.

Lemma chat_post_two_turns_witness :
  chat_history 7 (chat_post 7 "I'm hurt" "10:00" "10:01" db0) =
  [mkTurn "user" "I'm hurt" "10:00"; mkTurn "bot" reply_not_okay "10:01"].
Proof.
  apply (proj1 (chat_post_two_turns 7 "I'm hurt" "10:00" "10:01" db0
                  ltac:(discriminate))).
Defined.

(** X3: the text of the message alone decides the alert of a chat post: the
    alert table grows by the one row (High, the message as typed, the
    sender, the first clock reading) when a crisis keyword occurs in the
    lowercased message and no keyword of the four earlier tables and no
    override phrase does; in every other case the table is unchanged. *)
Theorem chat_post_alert_by_text (uid : Z) (msg ts ts2 : string) (db : DB) :
  (Occurs hopeless_words (lower msg) /\
   ~ Occurs earlier_words (lower msg) /\
   OverrideFree (lower msg) ->
   alerts (chat_post uid msg ts ts2 db) =
     (alerts db ++ [mkAlert uid "High" msg ts])%list) /\
  (~ (Occurs hopeless_words (lower msg) /\
      ~ Occurs earlier_words (lower msg) /\
      OverrideFree (lower msg)) ->
   alerts (chat_post uid msg ts ts2 db) = alerts db).
Proof.
  rewrite chat_post_alerts, <- alarming_iff.
  destruct (alarming msg); split; intros H;
    try reflexivity; try discriminate.
  exfalso. now apply H.
Qed.

Lemma chat_post_alert_by_text_witness :
  let msg := String kelvin_sign "ill myself" in
  alerts (chat_post 7 msg "10:00" "10:01" db0) = [mkAlert 7 "High" msg "10:00"].
Proof.
  cbv zeta.
  apply (proj1 (chat_post_alert_by_text
                  7 (String kelvin_sign "ill myself") "10:00" "10:01" db0)).
  apply alarming_iff. reflexivity.
Defined.

(** X4: on the label the classifier gives, the reply is always one of the
    nine fixed replies and never the fallback of [responses.get]; the
    fallback answers only a label outside the table, such as "bored". *)
Theorem bot_reply_never_fallback (uid : Z) (ts msg : string) (db : DB) :
  let reply := fst (respond uid ts msg (detect_emotion (Some msg)) db) in
  In reply known_replies /\
  reply <> reply_default /\
  fst (respond uid ts "ok" "bored" db) = reply_default.
Proof.
  cbv zeta. split; [apply respond_known_reply|]. split; [|reflexivity].
  intros H. apply reply_default_unknown. rewrite <- H.
  apply respond_known_reply.
Qed.

(** X5: for a logged-in user, a posted message that is absent or all white
    space stores nothing and shows the history as it was; an ASCII message
    with a character that is not white space stores two chat rows. *)
Theorem chat_blank_message (form : Form) (e : Env) (s : Session) (w : Site)
        (uid : Z) :
  sess_user s = Some uid ->
  (form_get form "message" = None \/
   all_space (dict_get form "message" "") = true ->
   chat POST form e s w = (ChatPage (chat_history uid (site_db w)), s, w)) /\
  (ascii_only (dict_get form "message" "") = true ->
   all_space (dict_get form "message" "") = false ->
   List.length (chats (site_db (snd (chat POST form e s w)))) =
     (List.length (chats (site_db w)) + 2)%nat).
Proof.
  intros Hs. split.
  - intros H.
    assert (Hb : all_space (dict_get form "message" "") = true).
    { destruct H as [H|H]; [|exact H]. now rewrite dict_get_absent. }
    unfold chat, login_required, chat_view. rewrite Hs.
    now rewrite truthy_strip, Hb.
  - intros _ Hb.
    destruct (chat_view_spec POST form e s w uid Hs) as (w' & Hv & _ & _ & Hdb).
    unfold chat, login_required. rewrite Hs, Hv. simpl. rewrite Hdb.
    rewrite chat_post_chats, length_app; [reflexivity|].
    apply truthy_true. now rewrite truthy_strip, Hb.
Qed.

Lemma chat_blank_message_witness :
  chat POST [("message", "   ")] env0 (mkSession (Some 7%Z) None) site0 =
  (ChatPage [], mkSession (Some 7%Z) None, site0).
Proof.
  apply (proj1 (chat_blank_message [("message", "   ")] env0
                  (mkSession (Some 7%Z) None) site0 7 eq_refl)).
  right. reflexivity.
Defined.

(** ** The mood tracker and the report *)

(** X6: the report has one count per name, and the five counts add up to
    the number of the user's tracker entries whose mood is exactly one of
    the five names: every such entry is counted once, under its name, and
    an entry with any other mood is counted nowhere. *)
Theorem report_counts_total (uid : Z) (all : list Mood) :
  List.length (report_counts uid all) = List.length report_names /\
  (list_sum (report_counts uid all)
   + List.length
       (filter (fun m => negb (existsb (String.eqb (mood_mood m)) report_names))
               (mood_log uid all))
   = List.length (mood_log uid all))%nat.
Proof.
  split; [reflexivity|].
  unfold mood_log. rewrite filter_rev, !length_rev.
  rewrite <- (report_counts_partition
                (filter (fun m => Z.eqb (mood_user_id m) uid) all)).
  unfold report_counts. simpl list_sum. lia.
Qed.

(** X7: a mood posted to the tracker by a logged-in user raises that user's
    report count of the posted name by one and leaves the other counts as
    they were; an empty mood, or one that is none of the five names,
    changes no count. *)
Theorem tracker_then_report (form : Form) (e : Env) (s : Session) (w : Site)
        (uid : Z) :
  sess_user s = Some uid ->
  let mood := dict_get form "mood" "" in
  let w' := snd (tracker POST form e s w) in
  report_counts uid (moods w') =
    map (fun '(name, c) => (c + if String.eqb mood name then 1 else 0)%nat)
        (combine report_names (report_counts uid (moods w))) /\
  (existsb (String.eqb mood) report_names = false ->
   report_counts uid (moods w') = report_counts uid (moods w)).
Proof.
  intros Hs mood w'.
  destruct (tracker_view_spec POST form e s w uid Hs) as (w1 & Hv & _ & Hm & _).
  assert (Hw : moods w' =
               if truthy mood
               then (moods w ++ [mkMood uid mood (env_ts e)])%list
               else moods w).
  { subst w'. unfold tracker, login_required. now rewrite Hs, Hv. }
  rewrite Hw. clear Hw Hv Hm.
  assert (H1 : report_counts uid
                 (if truthy mood
                  then (moods w ++ [mkMood uid mood (env_ts e)])%list
                  else moods w) =
               map (fun '(name, c) =>
                      (c + if String.eqb mood name then 1 else 0)%nat)
                   (combine report_names (report_counts uid (moods w)))).
  { destruct (truthy mood) eqn:Ht.
    - rewrite report_counts_snoc. simpl mood_user_id. now rewrite Z.eqb_refl.
    - unfold truthy in Ht. apply negb_false_iff, StringFacts.eqb_eq in Ht.
      rewrite Ht. unfold report_counts. simpl. now rewrite !Nat.add_0_r. }
  split; [exact H1|].
  intros Hn. rewrite H1. unfold report_names in *. simpl in Hn.
  repeat (apply orb_false_iff in Hn; destruct Hn as [? Hn]).
  unfold report_counts. simpl.
  repeat match goal with
         | H : String.eqb mood _ = false |- _ => rewrite H; clear H
         end.
  now rewrite !Nat.add_0_r.
Qed.

Lemma tracker_then_report_witness :
  report_counts 7
    (moods (snd (tracker POST [("mood", "Sad")] env0
                         (mkSession (Some 7%Z) None) site0))) =
  [0; 1; 0; 0; 0]%nat.
Proof.
  apply (proj1 (tracker_then_report [("mood", "Sad")] env0
                  (mkSession (Some 7%Z) None) site0 7 eq_refl)).
Defined.

(** X8: the tracker page of a logged-in user lists that user's entries
    newest first.  A posted mood that is not empty is stored as typed (it
    is not stripped) and heads the list, above the entries shown before; an
    empty or absent mood stores nothing. *)
Theorem tracker_newest_first (m : Method) (form : Form) (e : Env)
        (s : Session) (w : Site) (uid : Z) :
  sess_user s = Some uid ->
  let mood := dict_get form "mood" "" in
  (m = POST -> mood <> "" ->
   tracker m form e s w =
     (TrackerPage (mkMood uid mood (env_ts e) :: mood_log uid (moods w)), s,
      mkSite (users w) (moods w ++ [mkMood uid mood (env_ts e)])%list (site_db w))) /\
  (m = GET \/ mood = "" ->
   tracker m form e s w = (TrackerPage (mood_log uid (moods w)), s, w)).
Proof.
  intros Hs mood. unfold tracker, login_required, tracker_view.
  rewrite Hs. fold mood. split.
  - intros -> Hne. apply truthy_true in Hne. rewrite Hne. simpl.
    rewrite mood_log_snoc. simpl. now rewrite Z.eqb_refl.
  - intros [-> | Hm]; [reflexivity|].
    rewrite Hm. now destruct m.
Qed.

Lemma tracker_newest_first_witness :
  tracker POST [("mood", " ")] env0 (mkSession (Some 7%Z) None)
          (mkSite [] [mkMood 7 "Calm" "09:00"; mkMood 8 "Sad" "09:30"] db0) =
  (TrackerPage [mkMood 7 " " "2024-05-01 10:00:00"; mkMood 7 "Calm" "09:00"],
   mkSession (Some 7%Z) None,
   mkSite [] [mkMood 7 "Calm" "09:00"; mkMood 8 "Sad" "09:30";
              mkMood 7 " " "2024-05-01 10:00:00"] db0).
Proof.
  apply (proj1 (tracker_newest_first POST [("mood", " ")] env0
                  (mkSession (Some 7%Z) None)
                  (mkSite [] [mkMood 7 "Calm" "09:00"; mkMood 8 "Sad" "09:30"] db0)
                  7 eq_refl) eq_refl).
  discriminate.
Defined.

(** ** The advisor page *)

(** X9: after a chat post of a logged-in user the advisor list is the list
    as it was, with one new row on top when the message is alarming: the
    message as typed, risk "High", the first clock reading, the sender's id
    and the sender's e-mail, or "Unknown" when no user has that id. *)
Theorem advisor_after_chat (form : Form) (e : Env) (s : Session) (w : Site)
        (uid : Z) :
  sess_user s = Some uid ->
  let msg := strip (dict_get form "message" "") in
  let w' := snd (chat POST form e s w) in
  advisor_rows (users w') (site_db w') =
    ((if alarming msg
      then [mkAlertView (email_or_unknown (get_user (users w) uid))
                        msg "High" (env_ts e) uid]
      else []) ++ advisor_rows (users w) (site_db w))%list.
Proof.
  intros Hs msg w'.
  destruct (chat_view_spec POST form e s w uid Hs) as (w1 & Hv & Hu & _ & Hdb).
  subst w'. unfold chat, login_required. rewrite Hs, Hv. simpl.
  rewrite Hu, Hdb. apply advisor_rows_chat_post.
Qed.

Lemma advisor_after_chat_witness :
  let typed := String no_break_space (String kelvin_sign "ill myself ") in
  advisor_rows [mkUser 7 "a@b.c" "h"]
    (site_db (snd (chat POST [("message", typed)] env0
                        (mkSession (Some 7%Z) None)
                        (mkSite [mkUser 7 "a@b.c" "h"] [] db0)))) =
  [mkAlertView "a@b.c" (String kelvin_sign "ill myself") "High"
               "2024-05-01 10:00:00" 7].
Proof.
  cbv zeta.
  apply (advisor_after_chat
           [("message", String no_break_space (String kelvin_sign "ill myself "))]
           env0 (mkSession (Some 7%Z) None)
           (mkSite [mkUser 7 "a@b.c" "h"] [] db0) 7 eq_refl).
Defined.

(** X10: the advisor page has one row per alert of any user, newest first,
    and each row agrees with the therapist page of its user id: that page
    shows the row's e-mail, or it is the 404 page "User not found" and the
    row shows "Unknown". *)
Theorem advisor_rows_link (e : Env) (s : Session) (w : Site) :
  List.length (advisor_rows (users w) (site_db w)) =
    List.length (alerts (site_db w)) /\
  map av_message (advisor_rows (users w) (site_db w)) =
    rev (map alert_message (alerts (site_db w))) /\
  forall row,
    In row (advisor_rows (users w) (site_db w)) ->
    therapist_view (av_user_id row) e s w =
      (TherapistPage (av_email row), s, w) \/
    (therapist_view (av_user_id row) e s w = (NotFound "User not found", s, w) /\
     av_email row = "Unknown").
Proof.
  unfold advisor_rows. split; [|split].
  - now rewrite length_map, length_rev.
  - now rewrite map_map, map_rev.
  - intros row Hin. apply in_map_iff in Hin as (a & <- & _).
    unfold therapist_view. simpl.
    destruct (get_user (users w) (alert_user_id a)); simpl; auto.
Qed.

(** ** Sessions, registration and login *)

Lemma filter_none {A : Type} (f : A -> bool) (l : list A) :
  Forall (fun x => f x = false) l -> filter f l = [].
Proof.
  induction 1 as [|x l Hx _ IH]; simpl; [reflexivity | now rewrite Hx].
Qed.

Lemma toy_bcrypt_sound : BcryptSound toy_bcrypt.
Proof.
  constructor. intros salt password pw_hash [= <-]. simpl.
  now rewrite StringFacts.eqb_refl.
Qed.

Section Accounts.

Context {B : Bcrypt}.


(** X12: registration keeps the e-mails and the ids of the [User] table
    unique and leaves every stored user as it was; a POST whose stripped
    e-mail is already stored adds nothing and shows "Account already
    exists."; a GET adds nothing. *)
Theorem register_keeps_unique (m : Method) (form : Form) (e : Env)
        (s : Session) (w : Site) :
  NoDup (map usr_email (users w)) ->
  NoDup (map usr_id (users w)) ->
  let w' := snd (register m form e s w) in
  NoDup (map usr_email (users w')) /\
  NoDup (map usr_id (users w')) /\
  Extends (users w) (users w') /\
  (m = POST ->
   In (strip (dict_get form "email" "")) (map usr_email (users w)) ->
   register m form e s w =
     (RegisterPage (Some "Account already exists."), s, w)) /\
  (m = GET -> register m form e s w = (RegisterPage None, s, w)).
Proof.
  intros Hem Hid w'.
  pose proof (handle_summary (ReqRegister m form) e s w) as (Hu & _).
  simpl handle in Hu. fold w' in Hu.
  split; [|split; [|split; [|split]]].
  - destruct Hu as [-> | (email & pw & Hf & ->)]; [exact Hem|].
    rewrite map_app. apply NoDup_snoc; [exact Hem|].
    now apply first_by_email_None.
  - destruct Hu as [-> | (email & pw & Hf & ->)]; [exact Hid|].
    rewrite map_app. apply NoDup_snoc; [exact Hid | apply next_id_fresh].
  - destruct Hu as [-> | (email & pw & Hf & ->)];
      [apply Extends_refl | now eexists].
  - intros -> Hin. unfold register.
    destruct (first_by_email (users w) _) eqn:Hf; [reflexivity|].
    now apply first_by_email_None in Hf.
  - now intros ->.
Qed.

(** X13: with a bcrypt that accepts a password against its own hash, a
    registration that succeeded can be followed by a login with the same
    password and an e-mail that strips to the same text: the login
    redirects to the home page, logs the browser in under the id the new
    user was given, drops [chat_ui], and leaves the database alone. *)
Theorem register_then_login {HB : BcryptSound B}
        (reg form : Form) (e e' : Env) (s s' : Session) (w : Site) :
  fst (fst (register POST reg e s w)) = Redirect EpLogin ->
  strip (dict_get form "email" "") = strip (dict_get reg "email" "") ->
  form_get form "password" = Some (dict_get reg "password" "") ->
  let w1 := snd (register POST reg e s w) in
  login POST form e' s' w1 =
    (Redirect EpHome, mkSession (Some (next_id (users w))) None, w1).
Proof.
  intros Hr Hemail Hpw w1. subst w1. unfold register in *.
  destruct (first_by_email (users w) (strip (dict_get reg "email" ""))) eqn:Hf;
    [discriminate|].
  destruct (generate_password_hash (env_salt e) (dict_get reg "password" ""))
    as [pw|] eqn:Hg; [|discriminate].
  simpl. unfold login. simpl users. rewrite Hemail, Hpw.
  pose proof (first_by_email_snoc (users w)
                (mkUser (next_id (users w)) (strip (dict_get reg "email" "")) pw)
                Hf) as Hnew.
  simpl usr_email in Hnew. rewrite Hnew.
  simpl usr_password. now rewrite (check_generated _ _ _ Hg).
Qed.

End Accounts.

Lemma users1_emails_unique : NoDup (map usr_email [mkUser 1 "a@b.c" "h"]).
Proof. repeat constructor. simpl. tauto. Qed.

Lemma users1_ids_unique : NoDup (map usr_id [mkUser 1 "a@b.c" "h"]).
Proof. repeat constructor. simpl. tauto. Qed.

Lemma register_keeps_unique_witness :
  let form := [("email", String no_break_space "a@b.c "); ("password", "pw")] in
  @register toy_bcrypt POST form env0
            session0 (mkSite [mkUser 1 "a@b.c" "h"] [] db0) =
  (RegisterPage (Some "Account already exists."), session0,
   mkSite [mkUser 1 "a@b.c" "h"] [] db0).
Proof.
  cbv zeta.
  apply (@register_keeps_unique toy_bcrypt POST
           [("email", String no_break_space "a@b.c "); ("password", "pw")]
           env0 session0 (mkSite [mkUser 1 "a@b.c" "h"] [] db0)
           users1_emails_unique users1_ids_unique).
  - reflexivity.
  - simpl. left. reflexivity.
Defined.

Lemma register_then_login_witness :
  let reg := [("email", String no_break_space "a@b.c"); ("password", "pw")] in
  @login toy_bcrypt POST [("password", "pw"); ("email", "a@b.c")] env0 session0
    (snd (@register toy_bcrypt POST reg env0 session0 site0)) =
  (Redirect EpHome, mkSession (Some 1%Z) None,
   mkSite [mkUser 1 "a@b.c" "$pw"] [] db0).
Proof.
  cbv zeta.
  apply (@register_then_login toy_bcrypt toy_bcrypt_sound
           [("email", String no_break_space "a@b.c"); ("password", "pw")]
           [("password", "pw"); ("email", "a@b.c")]
           env0 env0 session0 session0 site0);
    reflexivity.
Defined.


(** ** What holds after every sequence of requests *)

Section Reachable.

Context {B : Bcrypt}.

(** X15: after any sequence of requests on a fresh installation, from
    browsers that start without a session, the ids and the e-mails of the
    users are unique, every logged-in browser is logged in as a stored
    user, and every chat, alert and mood row carries the id of a stored
    user. *)
Theorem reachable_consistent (trace : list (nat * Request * Env)) :
  Consistent (fst (run trace sessions0 site0)) (snd (run trace sessions0 site0)).
Proof.
  apply run_consistent, Consistent_fresh.
Qed.

(** X16: a request changes nothing that belongs to another user: for every
    id other than the one the browser is logged in as, the chat history,
    the mood log, the report counts and the alerts of that id are the same
    before and after the request. *)
Theorem request_leaves_others_alone (r : Request) (e : Env) (s : Session)
        (w : Site) (other : Z) :
  sess_user s <> Some other ->
  let w' := snd (handle r e s w) in
  chat_history other (site_db w') = chat_history other (site_db w) /\
  mood_log other (moods w') = mood_log other (moods w) /\
  report_counts other (moods w') = report_counts other (moods w) /\
  alerts_of other (site_db w') = alerts_of other (site_db w).
Proof.
  intros Hs w'.
  destruct (handle_summary r e s w) as (_ & _ & Hc & Ha & Hm).
  fold w' in Hc, Ha, Hm.
  destruct Hc as (cs & Ec & Hcs), Ha as (al & Ea & Hal), Hm as (ms & Em & Hms).
  assert (Fc : filter (fun m => Z.eqb (chat_user_id m) other) cs = []).
  { apply filter_none. eapply Forall_impl; [|exact Hcs].
    intros m Hm. apply Z.eqb_neq. intros <-. now apply Hs. }
  assert (Fa : filter (fun a => Z.eqb (alert_user_id a) other) al = []).
  { apply filter_none. eapply Forall_impl; [|exact Hal].
    intros a Hx. apply Z.eqb_neq. intros <-. now apply Hs. }
  assert (Fm : filter (fun m => Z.eqb (mood_user_id m) other) ms = []).
  { apply filter_none. eapply Forall_impl; [|exact Hms].
    intros m Hx. apply Z.eqb_neq. intros <-. now apply Hs. }
  unfold chat_history, mood_log, report_counts, alerts_of.
  rewrite Ec, Ea, Em, !filter_app, Fc, Fa, Fm, !app_nil_r. repeat split.
Qed.

(** X17: after any sequence of requests on a fresh installation, every row
    of the advisor page shows the e-mail of the stored user with the row's
    id, and the therapist page of that id shows the same e-mail: neither
    "Unknown" nor the 404 page stands in for a missing user.  The home page
    of a logged-in browser shows the e-mail of its user likewise. *)
Theorem reachable_rows_resolve (trace : list (nat * Request * Env)) (e : Env) :
  let ss := fst (run trace sessions0 site0) in
  let w := snd (run trace sessions0 site0) in
  (forall row (s : Session),
      In row (advisor_rows (users w) (site_db w)) ->
      exists u,
        In u (users w) /\ usr_id u = av_user_id row /\
        usr_email u = av_email row /\
        therapist_view (av_user_id row) e s w =
          (TherapistPage (av_email row), s, w)) /\
  (forall c uid,
      sess_user (ss c) = Some uid ->
      exists u,
        In u (users w) /\ usr_id u = uid /\
        home e (ss c) w = (HomePage (usr_email u), ss c, w)).
Proof.
  intros ss w.
  destruct (run_consistent trace _ _ Consistent_fresh)
    as (_ & _ & Hss & _ & Has & _).
  fold ss w in Hss, Has. split.
  - intros row s Hin. unfold advisor_rows in Hin.
    apply in_map_iff in Hin as (a & <- & Hin). apply in_rev in Hin.
    rewrite Forall_forall in Has. specialize (Has a Hin).
    apply get_user_known in Has as [u Hu].
    destruct (get_user_id _ _ _ Hu) as [Hiu Hid].
    exists u. unfold therapist_view. simpl. rewrite Hu. simpl. auto.
  - intros c uid Hs. specialize (Hss c uid Hs).
    apply get_user_known in Hss as [u Hu].
    destruct (get_user_id _ _ _ Hu) as [Hiu Hid].
    exists u. unfold home, login_required, home_view. rewrite Hs, Hu. auto.
Qed.

End Reachable.

Lemma request_leaves_others_alone_witness :
  let w := mkSite [] [mkMood 8 "Sad" "09:30"]
                  (mkDB [mkChat 8 "user" "hi" "09:00"] []) in
  let w' := snd (@handle toy_bcrypt
                   (ReqChat POST [("message", "I give up")]) env0
                   (mkSession (Some 7%Z) None) w) in
  chat_history 8 (site_db w') = chat_history 8 (site_db w) /\
  mood_log 8 (moods w') = mood_log 8 (moods w) /\
  report_counts 8 (moods w') = report_counts 8 (moods w) /\
  alerts_of 8 (site_db w') = alerts_of 8 (site_db w).
Proof.
  cbv zeta.
  apply (@request_leaves_others_alone toy_bcrypt
           (ReqChat POST [("message", "I give up")]) env0
           (mkSession (Some 7%Z) None)
           (mkSite [] [mkMood 8 "Sad" "09:30"]
                   (mkDB [mkChat 8 "user" "hi" "09:00"] [])) 8).
  discriminate.
Defined.

(** ** The branches of the reply selection the claims leave open *)

(** X18: branches 2, 3 and 5 of [respond], each tested on the lowercased
    text and in this order: a "not okay" phrase answers when no "help"
    phrase occurs, an "alone" phrase when neither of the two does, and
    without any override phrase a label other than crisis is looked up in
    the table of canned replies, a label outside the six getting the
    fallback reply.  None of these branches writes to the database. *)
Theorem respond_branch_order (uid : Z) (ts text label : string) (db : DB) :
  let t := lower text in
  (~ Occurs help_phrases t -> Occurs not_okay_phrases t ->
   respond uid ts text label db = (reply_not_okay, db)) /\
  (~ Occurs help_phrases t -> ~ Occurs not_okay_phrases t ->
   Occurs alone_phrases t ->
   respond uid ts text label db = (reply_alone, db)) /\
  (OverrideFree t -> label <> "crisis" ->
   respond uid ts text label db = (dict_get responses label reply_default, db)) /\
  (OverrideFree t -> ~ In label labels ->
   respond uid ts text label db = (reply_default, db)).
Proof.
  intros t. split; [|split; [|split]].
  - intros Hh Hn. apply any_in_false in Hh. apply any_in_Occurs in Hn.
    rewrite respond_cascade. fold t. cbv zeta. now rewrite Hh, Hn.
  - intros Hh Hn Ha.
    apply any_in_false in Hh, Hn. apply any_in_Occurs in Ha.
    rewrite respond_cascade. fold t. cbv zeta. now rewrite Hh, Hn, Ha.
  - intros Hov Hc.
    rewrite (respond_override_free _ _ _ _ _ Hov).
    apply StringFacts.eqb_neq in Hc. now rewrite Hc.
  - intros Hov Hl.
    rewrite (respond_override_free _ _ _ _ _ Hov).
    unfold labels in Hl. simpl in Hl.
    assert (Hk : forall k, In k ["happy"; "sad"; "anxious"; "angry";
                                 "crisis"; "neutral"] ->
                           String.eqb label k = false).
    { intros k Hk. apply StringFacts.eqb_neq. intros ->. now apply Hl. }
    rewrite (Hk "crisis") by (simpl; tauto). simpl.
    rewrite (Hk "happy"), (Hk "sad"), (Hk "anxious"), (Hk "angry"),
      (Hk "neutral") by (simpl; tauto).
    reflexivity.
Qed.

Lemma respond_branch_order_witness :
  let text := "not o" ++ String kelvin_sign "ay and alone" in
  respond 7 "10:00" text "neutral" db0 = (reply_not_okay, db0).
Proof.
  cbv zeta.
  apply (proj1 (respond_branch_order
                  7 "10:00" ("not o" ++ String kelvin_sign "ay and alone")
                  "neutral" db0)).
  - apply any_in_false. reflexivity.
  - apply any_in_Occurs. reflexivity.
Defined.
